(** * Calgooo demo server: the streak / consistency engine of [index.js]

    A shallow embedding of the second (current) server of [src/index.js]:
    the in-memory store, [totalsForDate], [dayStat], [buildSummary], and the
    three routes that write what the engine reads ([POST /v1/meals],
    [POST /v1/streaks/log], [POST /v1/scan/analyze]); then onboarding
    ([fabricatePlan], [POST /v1/users/bootstrap]) and the two listings
    ([GET /v1/meals], [GET /v1/uploads]) on the whole server state.

    Modelling conventions.
    - A JavaScript number is a [num]: an exact rational, or one of the three
      non-finite doubles.  The rounding of a double operation and the sign
      of zero are not modelled; module [Double] runs the scoring on binary64
      numbers, to compare the two on integer counters.
    - [store.mealsByDate] and [store.streakOverrides] are objects used as
      maps from date keys to values: [gmap string _], where a missing key is
      JavaScript's [undefined].  Only own properties are modelled.
    - [Date.now()], [Math.random()] and the calendar are inputs supplied by
      the environment. *)

From Stdlib Require Import ZArith QArith Qabs Qround Lia Lqa List Bool Ascii String.
From Stdlib Require PrimFloat Uint63.
From Stdlib Require Import DecimalString DecimalPos DecimalN DecimalZ.
From stdpp Require Import gmap strings.

Close Scope Q_scope.

(** ** JavaScript numbers *)

Inductive num : Type :=
| Fin (q : Q)
| PosInf
| NegInf
| NaN.

Module Num.

Definition neg (a : num) : num :=
  match a with
  | Fin q => Fin (- q)
  | PosInf => NegInf
  | NegInf => PosInf
  | NaN => NaN
  end.

(** [a + b] *)
Definition add (a b : num) : num :=
  match a, b with
  | NaN, _ | _, NaN => NaN
  | Fin x, Fin y => Fin (x + y)
  | PosInf, NegInf | NegInf, PosInf => NaN
  | PosInf, _ | _, PosInf => PosInf
  | NegInf, _ | _, NegInf => NegInf
  end.

(** [a - b] *)
Definition sub (a b : num) : num := add a (neg b).

(** [a <= b]; every comparison with [NaN] is false. *)
Definition le (a b : num) : bool :=
  match a, b with
  | NaN, _ | _, NaN => false
  | Fin x, Fin y => Qle_bool x y
  | NegInf, _ => true
  | _, PosInf => true
  | _, _ => false
  end.

(** [a < b] *)
Definition lt (a b : num) : bool :=
  match a, b with
  | NaN, _ | _, NaN => false
  | Fin x, Fin y => negb (Qle_bool y x)
  | PosInf, _ => false
  | _, NegInf => false
  | _, _ => true
  end.

(** [a > b] *)
Definition gt (a b : num) : bool := lt b a.

(** [a / b].  A finite non-zero number divided by zero is an infinity of
    the sign of the numerator (the zero being taken positive), [0 / 0] is
    [NaN]: a division never raises. *)
Definition div (a b : num) : num :=
  match a, b with
  | NaN, _ | _, NaN => NaN
  | Fin x, Fin y =>
      if Qeq_bool y 0 then
        if Qeq_bool x 0 then NaN
        else if Qle_bool 0 x then PosInf else NegInf
      else Fin (x / y)
  | Fin _, _ => Fin 0
  | PosInf, Fin y => if Qle_bool 0 y then PosInf else NegInf
  | NegInf, Fin y => if Qle_bool 0 y then NegInf else PosInf
  | _, _ => NaN
  end.

(** Falsy numbers are [0] and [NaN]. *)
Definition truthy (a : num) : bool :=
  match a with
  | Fin q => negb (Qeq_bool q 0)
  | NaN => false
  | _ => true
  end.

(** An integer value: what [Number.isInteger] accepts. *)
Definition isInteger (a : num) : bool :=
  match a with
  | Fin q => Qeq_bool q (inject_Z (Qfloor q))
  | _ => false
  end.

End Num.

(** [Math.abs] *)
Definition Math_abs (a : num) : num :=
  match a with
  | Fin q => Fin (Qabs q)
  | PosInf | NegInf => PosInf
  | NaN => NaN
  end.

(** [Math.max] of two arguments *)
Definition Math_max (a b : num) : num :=
  match a, b with
  | NaN, _ | _, NaN => NaN
  | _, _ => if Num.le a b then b else a
  end.

(** [Math.min] of two arguments *)
Definition Math_min (a b : num) : num :=
  match a, b with
  | NaN, _ | _, NaN => NaN
  | _, _ => if Num.le a b then a else b
  end.

(** [Math.round]: the nearest integer, a tie going up. *)
Definition Math_round (a : num) : num :=
  match a with
  | Fin q => Fin (inject_Z (Qfloor (q + (1 # 2))))
  | _ => a
  end.

(** [const clamp = (v, a, b) => Math.max(a, Math.min(b, v))].  Its one call,
    in [buildSummary], is on integers. *)
Definition clamp (v a b : Z) : Z := Z.max a (Z.min b v).

(** ** The store *)

Record MacroSet : Type := mkMacroSet {
  caloriesKcal : num;
  proteinG : num;
  carbsG : num;
  fatG : num;
  fiberG : num
}.

(** A logged meal.  [id] and [createdAt] are built from the clock and the
    random generator; they are handed in by the caller. *)
Record Meal : Type := mkMeal {
  meal_id : string;
  meal_type : string;
  meal_title : string;
  meal_imageAbsoluteUrl : option string;
  macros : MacroSet;
  meal_createdAt : string
}.

(** [store]: the goal of [store.user.goals], the meal log and the
    overrides.  The profile fields of [store.user] and [store.uploads] are
    never read by the streak engine and are left out. *)
Record Store : Type := mkStore {
  user_goals : option MacroSet;
  mealsByDate : gmap string (list Meal);
  streakOverrides : gmap string bool
}.

(** The store the module starts with. *)
Definition store0 : Store :=
  {| user_goals := Some (mkMacroSet (Fin 2200) (Fin 100) (Fin 275) (Fin 70) (Fin 30));
     mealsByDate := ∅;
     streakOverrides := ∅ |}.

(** [store.mealsByDate[date] || []] *)
Definition mealsFor (st : Store) (date : string) : list Meal :=
  match mealsByDate st !! date with
  | Some items => items
  | None => []
  end.

Definition zeroMacros : MacroSet :=
  mkMacroSet (Fin 0) (Fin 0) (Fin 0) (Fin 0) (Fin 0).

(** The callback of the [reduce] in [totalsForDate]. *)
Definition addMacros (acc : MacroSet) (m : Meal) : MacroSet :=
  {| caloriesKcal := Num.add (caloriesKcal acc) (caloriesKcal (macros m));
     proteinG := Num.add (proteinG acc) (proteinG (macros m));
     carbsG := Num.add (carbsG acc) (carbsG (macros m));
     fatG := Num.add (fatG acc) (fatG (macros m));
     fiberG := Num.add (fiberG acc) (fiberG (macros m)) |}.

(** [totalsForDate] *)
Definition totalsForDate (st : Store) (date : string) : MacroSet :=
  let items := mealsFor st date in
  fold_left addMacros items zeroMacros.

(** ** Streak scoring *)

Record DayStat : Type := mkDayStat {
  date : string;
  hit : bool;
  score : num
}.

(** [(store.user.goals || { caloriesKcal: 2200 }).caloriesKcal] *)
Definition goalCalories (st : Store) : num :=
  match user_goals st with
  | Some g => caloriesKcal g
  | None => Fin 2200
  end.

(** The [diff] of [dayStat]:
    [Math.abs(totals.caloriesKcal - goals.caloriesKcal) / Math.max(1, goals.caloriesKcal)] *)
Definition deviation (totalCal goalCal : num) : num :=
  Num.div (Math_abs (Num.sub totalCal goalCal)) (Math_max (Fin 1) goalCal).

(** The five assignments to [score] of [dayStat], in the order of the
    source, each overwriting the one before, then the defensive clamp. *)
Definition scoreOf (diff : num) : num :=
  let score := Fin 1 in
  let score := if Num.le diff (Fin (25 # 100)) then Fin 1 else score in
  let score := if Num.le diff (Fin (12 # 100)) then Fin 2 else score in
  let score := if Num.le diff (Fin (8 # 100)) then Fin 3 else score in
  let score := if Num.le diff (Fin (5 # 100)) then Fin 4 else score in
  Math_max (Fin 0) (Math_min (Fin 4) (Math_round score)).

(** [dayStat], on the values it reads from the store: the override of the
    date ([None] when [typeof override] is not ['boolean']), the calorie
    goal and the calorie total of the date. *)
Definition classify (d : string) (override : option bool) (goalCal totalCal : num) : DayStat :=
  let hasMeals := Num.gt totalCal (Fin 0) in
  let hit := match override with Some b => b | None => hasMeals end in
  if negb hit then {| date := d; hit := false; score := Fin 0 |}
  else
    let diff := deviation totalCal goalCal in
    {| date := d; hit := true; score := scoreOf diff |}.

(** [function dayStat(date)] *)
Definition dayStat (st : Store) (d : string) : DayStat :=
  let override := streakOverrides st !! d in
  let totals := totalsForDate st d in
  classify d override (goalCalories st) (caloriesKcal totals).

(** The [diff] that [dayStat] computes for a date. *)
Definition dayDiff (st : Store) (d : string) : num :=
  deviation (caloriesKcal (totalsForDate st d)) (goalCalories st).

(** ** The summary *)

Definition BADGE_Tiers : list nat := [7; 14; 30; 60; 90; 120].

(** One turn of the forward loop over [days], on the pair [(cur, best)]. *)
Definition streakStep (acc : nat * nat) (d : DayStat) : nat * nat :=
  let '(cur, best) := acc in
  if hit d then (S cur, Nat.max best (S cur)) else (0, best).

(** [let cur = 0, best = 0; for (let i = 0; i < days.length; i++) ...] *)
Definition forwardLoop (days : list DayStat) : nat * nat :=
  fold_left streakStep days (0, 0).

(** The backward loop, on the days from the last one down: it counts until
    the first miss, where it breaks. *)
Fixpoint trailingLoop (fromLast : list DayStat) (trailing : nat) : nat :=
  match fromLast with
  | [] => trailing
  | d :: earlier => if hit d then trailingLoop earlier (S trailing) else trailing
  end.

(** [days.slice(-n)] *)
Definition sliceLast {A : Type} (n : nat) (l : list A) : list A :=
  skipn (length l - n) l.

(** [l.filter(d => d.hit).length] *)
Definition countHits (l : list DayStat) : nat :=
  length (List.filter hit l).

Record Summary : Type := mkSummary {
  range_start : option string;
  range_end : option string;
  range_weeks : Z;
  goals_caloriesKcal : num;
  days : list DayStat;
  currentStreak : nat;
  bestStreak : nat;
  hits7 : nat;
  hits30 : nat;
  earnedTiers : list nat
}.

(** The part of [buildSummary] after the loop that fills [days]. *)
Definition summarize (w : Z) (goalCal : num) (days : list DayStat) : Summary :=
  let best := snd (forwardLoop days) in
  let trailing := trailingLoop (rev days) 0 in
  let last7 := sliceLast 7 days in
  let last30 := sliceLast 30 days in
  let hits7 := countHits last7 in
  let hits30 := countHits last30 in
  {| range_start := option_map date (head days);
     range_end := option_map date (last days);
     range_weeks := w;
     goals_caloriesKcal := Math_round goalCal;
     days := days;
     currentStreak := trailing;
     bestStreak := best;
     hits7 := hits7;
     hits30 := hits30;
     earnedTiers := List.filter (fun t => (t <=? best)%nat) BADGE_Tiers |}.

(** *** [parseInt(s, 10)] *)

Definition isWhiteSpace (c : ascii) : bool :=
  let n := nat_of_ascii c in
  ((n =? 32) || ((9 <=? n) && (n <=? 13)))%nat.

Fixpoint trimStart (s : string) : string :=
  match s with
  | String c rest => if isWhiteSpace c then trimStart rest else s
  | EmptyString => s
  end.

Definition digitValue (c : ascii) : option Z :=
  let n := nat_of_ascii c in
  if ((48 <=? n) && (n <=? 57))%nat then Some (Z.of_nat (n - 48)) else None.

(** The value of the longest prefix of decimal digits; [None] when the
    prefix is empty. *)
Fixpoint digitsPrefix (s : string) (acc : option Z) : option Z :=
  match s with
  | String c rest =>
      match digitValue c with
      | Some v => digitsPrefix rest (Some (10 * default 0%Z acc + v)%Z)
      | None => acc
      end
  | EmptyString => acc
  end.

(** [parseInt(s, 10)]: leading white space, a sign, decimal digits; [None]
    is [NaN]. *)
Definition parseInt10 (s : string) : option Z :=
  let s := trimStart s in
  let '(sign, s) :=
    match s with
    | String "-"%char rest => ((-1)%Z, rest)
    | String "+"%char rest => (1%Z, rest)
    | _ => (1%Z, s)
    end in
  match digitsPrefix s None with
  | Some n => Some (sign * n)%Z
  | None => None
  end.

(** [parseInt(weeks, 10) || 12], after the default [weeks = 12] of the
    parameter; a query value is given by its string. *)
Definition weeksOrDefault (weeks : option string) : Z :=
  let parsed := match weeks with
                | None => Some 12%Z
                | Some s => parseInt10 s
                end in
  match parsed with
  | Some 0%Z | None => 12%Z
  | Some n => n
  end.

(** [const w = clamp(parseInt(weeks, 10) || 12, 1, 26)] *)
Definition weeksOf (weeks : option string) : Z :=
  clamp (weeksOrDefault weeks) 1 26.

(** What the process clock and calendar supply: [isoDate()], and for a
    window of [daysCount] days ending now the key
    [d.toISOString().slice(0, 10)] of its [i]-th date. *)
Record Calendar : Type := mkCalendar {
  isoDate : string;
  windowKey : Z -> nat -> string
}.

(** [function buildSummary(weeks = 12)] *)
Definition buildSummary (cal : Calendar) (st : Store) (weeks : option string) : Summary :=
  let w := weeksOf weeks in
  let daysCount := (w * 7)%Z in
  let days := map (fun i => dayStat st (windowKey cal daysCount i))
                  (seq 0 (Z.to_nat daysCount)) in
  summarize w (goalCalories st) days.

(** ** Routes that write the store *)

(** The JSON values a macro field of a request body is modelled with
    (a missing field is [undefined]); strings and nested objects are left
    out. *)
Inductive jsval : Type :=
| JUndefined
| JNull
| JBool (b : bool)
| JNum (n : num).

Definition truthy (v : jsval) : bool :=
  match v with
  | JUndefined | JNull => false
  | JBool b => b
  | JNum n => Num.truthy n
  end.

Definition ToNumber (v : jsval) : num :=
  match v with
  | JUndefined => NaN
  | JNull => Fin 0
  | JBool b => if b then Fin 1 else Fin 0
  | JNum n => n
  end.

(** [Math.round(v || 0)] *)
Definition roundOrZero (v : jsval) : num :=
  Math_round (ToNumber (if truthy v then v else JNum (Fin 0))).

Record MacrosBody : Type := mkMacrosBody {
  body_caloriesKcal : jsval;
  body_proteinG : jsval;
  body_carbsG : jsval;
  body_fatG : jsval;
  body_fiberG : jsval
}.

(** [req.body] of [POST /v1/meals]; [None] is a missing field, and a
    string is falsy when it is empty.  A truthy [macros] that is not an
    object reads as an object without fields. *)
Record MealBody : Type := mkMealBody {
  body_date : option string;
  body_type : option string;
  body_title : option string;
  body_imageAbsoluteUrl : option string;
  body_macros : option MacrosBody
}.

Definition truthyStr (o : option string) : option string :=
  match o with
  | Some s => if String.eqb s "" then None else Some s
  | None => None
  end.

Inductive Reply (A : Type) : Type :=
| Ok (a : A)
| Status400 (code : string).
Arguments Ok {A} a.
Arguments Status400 {A} code.

(** The [macros] of the stored item. *)
Definition roundMacros (m : MacrosBody) : MacroSet :=
  {| caloriesKcal := roundOrZero (body_caloriesKcal m);
     proteinG := roundOrZero (body_proteinG m);
     carbsG := roundOrZero (body_carbsG m);
     fatG := roundOrZero (body_fatG m);
     fiberG := roundOrZero (body_fiberG m) |}.

(** [app.post('/v1/meals', ...)]: the new store, and the stored item with
    the new totals of the date. *)
Definition postMeals (st : Store) (id createdAt : string) (body : MealBody)
  : Store * Reply (Meal * MacroSet) :=
  match truthyStr (body_date body), truthyStr (body_type body), body_macros body with
  | Some d, Some type, Some m =>
      let item :=
        {| meal_id := id;
           meal_type := type;
           meal_title := default "Meal"%string (truthyStr (body_title body));
           meal_imageAbsoluteUrl := truthyStr (body_imageAbsoluteUrl body);
           macros := roundMacros m;
           meal_createdAt := createdAt |} in
      let st' :=
        {| user_goals := user_goals st;
           mealsByDate := <[d := item :: mealsFor st d]> (mealsByDate st);
           streakOverrides := streakOverrides st |} in
      (st', Ok (item, totalsForDate st' d))
  | _, _, _ => (st, Status400 "bad_request")
  end.

(** [store.streakOverrides[date] = b] *)
Definition setOverride (st : Store) (d : string) (b : bool) : Store :=
  {| user_goals := user_goals st;
     mealsByDate := mealsByDate st;
     streakOverrides := <[d := b]> (streakOverrides st) |}.

(** [app.post('/v1/streaks/log', ...)]: [bodyHit] is [req.body.hit] when it
    is a boolean.  The reply is [{ date, hit }]. *)
Definition postStreaksLog (cal : Calendar) (st : Store)
    (bodyDate : option string) (bodyHit : option bool) : Store * (string * bool) :=
  let d := default (isoDate cal) (truthyStr bodyDate) in
  let cur := hit (dayStat st d) in
  let st' := setOverride st d (match bodyHit with Some b => b | None => negb cur end) in
  (st', (d, default false (streakOverrides st' !! d))).

(** [app.post('/v1/scan/analyze', ...)], on whether the request carries a
    file: a scan marks today as done. *)
Definition postScanAnalyze (cal : Calendar) (st : Store) (hasFile : bool)
  : Store * Reply unit :=
  if negb hasFile then (st, Status400 "no_file")
  else
    let today := isoDate cal in
    (setOverride st today true, Ok tt).

(** ** The scoring on binary64 numbers

    [deviation] and the cascade of [dayStat] once more, on the doubles the
    server computes with; the thresholds are the doubles nearest to 0.25,
    0.12, 0.08 and 0.05.  The score is returned as an integer. *)

Module Double.
Import PrimFloat.
Local Set Warnings "-inexact-float".

Definition ofZ (z : Z) : float := of_uint63 (Uint63.of_Z z).

(** [Math.max] of two arguments *)
Definition max (a b : float) : float :=
  if is_nan a || is_nan b then nan
  else if ltb a b then b else a.

Definition deviation (totalCal goalCal : float) : float :=
  div (abs (sub totalCal goalCal)) (max 1%float goalCal).

Definition scoreOf (diff : float) : Z :=
  let score := 1%Z in
  let score := if leb diff 0.25%float then 1%Z else score in
  let score := if leb diff 0.12%float then 2%Z else score in
  let score := if leb diff 0.08%float then 3%Z else score in
  let score := if leb diff 0.05%float then 4%Z else score in
  score.

End Double.

(** The exact score and the binary64 score of a day of [t] kcal against a
    goal of [g] kcal are the same. *)
Definition scoreAgrees (g t : Z) : bool :=
  match scoreOf (deviation (Fin (inject_Z t)) (Fin (inject_Z g))) with
  | Fin q => Qeq_bool q (inject_Z (Double.scoreOf (Double.deviation (Double.ofZ t) (Double.ofZ g))))
  | _ => false
  end.

(** ** Onboarding *)

(** [a * b]; an infinity times zero is [NaN]. *)
Definition num_mul (a b : num) : num :=
  match a, b with
  | NaN, _ | _, NaN => NaN
  | Fin x, Fin y => Fin (x * y)
  | Fin x, PosInf | PosInf, Fin x =>
      if Qeq_bool x 0 then NaN else if Qle_bool 0 x then PosInf else NegInf
  | Fin x, NegInf | NegInf, Fin x =>
      if Qeq_bool x 0 then NaN else if Qle_bool 0 x then NegInf else PosInf
  | PosInf, PosInf | NegInf, NegInf => PosInf
  | PosInf, NegInf | NegInf, PosInf => NegInf
  end.

(** [const lbToKg = (lb) => lb / 2.20462262] *)
Definition lbToKg (lb : num) : num :=
  Num.div lb (Fin (220462262 # 100000000)).

(** [const ftInToMeters = (ft, inch) => ((ft * 12 + inch) * 2.54) / 100] *)
Definition ftInToMeters (ft inch : num) : num :=
  Num.div (num_mul (Num.add (num_mul ft (Fin 12)) inch) (Fin (254 # 100))) (Fin 100).

(** The object [fabricatePlan] returns: its five macro fields are grouped
    in a [MacroSet]. *)
Record Plan : Type := mkPlan {
  plan_goal : string;
  plan_macros : MacroSet;
  plan_notes : string
}.

(** [function fabricatePlan({ goal, age, weightKg, heightM })]; [age] and
    [heightM] are not used by the body. *)
Definition fabricatePlan (goal : string) (age weightKg heightM : num) : Plan :=
  let maintain := Math_round (num_mul weightKg (Fin 30)) in
  let calories := maintain in
  let calories :=
    if String.eqb goal "gain" then Math_round (num_mul maintain (Fin (115 # 100)))
    else calories in
  let calories :=
    if String.eqb goal "lose" then Math_round (num_mul maintain (Fin (80 # 100)))
    else calories in
  let proteinG := Math_round (num_mul weightKg (Fin (18 # 10))) in
  let fatG := Math_round (num_mul weightKg (Fin (8 # 10))) in
  let kcalFromPF := Num.add (num_mul proteinG (Fin 4)) (num_mul fatG (Fin 9)) in
  let carbsG := Math_max (Fin 0) (Math_round (Num.div (Num.sub calories kcalFromPF) (Fin 4))) in
  let fiberG := Fin 30 in
  {| plan_goal := goal;
     plan_macros := mkMacroSet calories proteinG carbsG fatG fiberG;
     plan_notes := ("Auto plan for " ++ goal ++ ". Tweak anytime in Profile.")%string |}.

(** [weight] and [height] of the onboarding body: [{ unit, value }] and
    [{ unit, value, ft, in }]. *)
Record Measure : Type := mkMeasure {
  m_unit : option string;
  m_value : jsval;
  m_ft : jsval;
  m_in : jsval
}.

(** [req.body] of [POST /v1/users/bootstrap]; a field that is not of the
    expected type reads as missing. *)
Record BootstrapBody : Type := mkBootstrapBody {
  boot_units : option string;
  boot_age : jsval;
  boot_weight : option Measure;
  boot_height : option Measure;
  boot_goal : option string;
  boot_timezone : option string
}.

(** [Number(v) || d] *)
Definition numberOr (v : jsval) (d : num) : num :=
  let n := ToNumber v in
  if Num.truthy n then n else d.

(** [m?.unit === u] *)
Definition unitIs (m : option Measure) (u : string) : bool :=
  match m with
  | Some m => match m_unit m with Some x => String.eqb x u | None => false end
  | None => false
  end.

Definition measureValue (m : option Measure) (field : Measure -> jsval) : jsval :=
  match m with
  | Some m => field m
  | None => JUndefined
  end.

(** The [weightKg] that the route normalizes the body to. *)
Definition bootWeightKg (body : BootstrapBody) : num :=
  let weight := boot_weight body in
  let weightKg := Fin 70 in
  if unitIs weight "kg" then numberOr (measureValue weight m_value) (Fin 70)
  else if unitIs weight "lb" then lbToKg (numberOr (measureValue weight m_value) (Fin 154))
  else weightKg.

(** The [heightM] that the route normalizes the body to. *)
Definition bootHeightM (body : BootstrapBody) : num :=
  let height := boot_height body in
  let heightM := Fin (175 # 100) in
  if unitIs height "cm" then Num.div (numberOr (measureValue height m_value) (Fin 175)) (Fin 100)
  else if unitIs height "imperial" then
    let ft := numberOr (measureValue height m_ft) (Fin 5) in
    let inch := numberOr (measureValue height m_in) (Fin 9) in
    ftInToMeters ft inch
  else heightM.

(** [goal === 'gain' || goal === 'lose' || goal === 'maintain' ? goal : 'maintain'] *)
Definition planGoalOf (goal : option string) : string :=
  match goal with
  | Some g =>
      if String.eqb g "gain" || String.eqb g "lose" || String.eqb g "maintain" then g
      else "maintain"%string
  | None => "maintain"%string
  end.

Record Profile : Type := mkProfile {
  profile_units : string;
  profile_age : num;
  profile_weightKg : num;
  profile_heightM : num
}.

(** [store.user] without its [goals], which [Store] holds. *)
Record User : Type := mkUser {
  planGoal : string;
  timezone : string;
  profile : Profile
}.

(** One entry of [store.uploads]. *)
Record Upload : Type := mkUpload {
  up_id : string;
  up_filename : string;
  up_url : string;
  up_absoluteUrl : string;
  up_createdAt : string
}.

(** The whole [store]: the part the streak engine reads, the rest of
    [store.user], and [store.uploads]. *)
Record Server : Type := mkServer {
  srv_store : Store;
  srv_user : User;
  srv_uploads : list Upload
}.


(** The reply [{ ok: true, timezone, plan, goals }]. *)
Record BootstrapReply : Type := mkBootstrapReply {
  reply_timezone : string;
  reply_plan : Plan;
  reply_goals : MacroSet
}.

(** The [goals] that the route stores: each field of the plan, rounded. *)
Definition roundGoals (plan : Plan) : MacroSet :=
  let m := plan_macros plan in
  {| caloriesKcal := Math_round (caloriesKcal m);
     proteinG := Math_round (proteinG m);
     carbsG := Math_round (carbsG m);
     fatG := Math_round (fatG m);
     fiberG := Math_round (fiberG m) |}.

(** [app.post('/v1/users/bootstrap', ...)].  Nothing in the [try] block
    raises on the bodies modelled, so the [catch] branch is left out. *)
Definition postBootstrap (srv : Server) (body : BootstrapBody) : Server * BootstrapReply :=
  let weightKg := bootWeightKg body in
  let heightM := bootHeightM body in
  let planGoal := planGoalOf (boot_goal body) in
  let age := Math_round (numberOr (boot_age body) (Fin 25)) in
  let plan := fabricatePlan planGoal age weightKg heightM in
  let user :=
    {| planGoal := planGoal;
       timezone := default "UTC"%string (truthyStr (boot_timezone body));
       profile :=
         {| profile_units :=
              match boot_units body with
              | Some u => if String.eqb u "imperial" then "imperial"%string else "metric"%string
              | None => "metric"%string
              end;
            profile_age := age;
            profile_weightKg := Math_round weightKg;
            profile_heightM := Num.div (Math_round (num_mul heightM (Fin 100))) (Fin 100) |} |} in
  let goals := roundGoals plan in
  let st := srv_store srv in
  let srv' :=
    {| srv_store :=
         {| user_goals := Some goals;
            mealsByDate := mealsByDate st;
            streakOverrides := streakOverrides st |};
       srv_user := user;
       srv_uploads := srv_uploads srv |} in
  (srv', mkBootstrapReply (timezone user) plan goals).

(** ** The other routes, on the whole store *)

(** [app.post('/v1/scan/analyze', ...)] with the upload record: [file] is
    [req.file.filename] when a file came with the request; the mock
    suggestions of the reply are a constant and are left out. *)
Definition scanAnalyze (cal : Calendar) (srv : Server) (file : option string)
    (protocol host createdAt : string) : Server * Reply Upload :=
  match file with
  | None => (srv, Status400 "no_file")
  | Some filename =>
      let publicUrl := ("/uploads/" ++ filename)%string in
      let absoluteUrl := (protocol ++ "://" ++ host ++ publicUrl)%string in
      let rec := mkUpload filename filename publicUrl absoluteUrl createdAt in
      let today := isoDate cal in
      ({| srv_store := setOverride (srv_store srv) today true;
          srv_user := srv_user srv;
          srv_uploads := rec :: srv_uploads srv |}, Ok rec)
  end.

(** [app.get('/v1/uploads', ...)]: [store.uploads.slice(0, 20)] *)
Definition getUploads (srv : Server) : list Upload :=
  firstn 20 (srv_uploads srv).

(** [app.get('/v1/meals', ...)]: [queryDate] is [req.query.date] when it is
    a string.  [Array.prototype.sort] works in place, so the list of the
    date is left sorted in the store; the comparator never answers 0, and
    the order the engine then produces is taken as the function [sort]. *)
Definition getMeals (sort : list Meal -> list Meal) (cal : Calendar) (st : Store)
    (queryDate : option string) : Store * (string * list Meal * MacroSet) :=
  let d := default (isoDate cal) queryDate in
  match mealsByDate st !! d with
  | Some stored =>
      let items := sort stored in
      let st' :=
        {| user_goals := user_goals st;
           mealsByDate := <[d := items]> (mealsByDate st);
           streakOverrides := streakOverrides st |} in
      (st', (d, items, totalsForDate st' d))
  | None => (st, (d, [], totalsForDate st d))
  end.

(** A request to the server, with what the environment supplies for it. *)
Inductive Request : Type :=
| ReqBootstrap (body : BootstrapBody)
| ReqSummary (cal : Calendar) (weeks : option string)
| ReqStreaksLog (cal : Calendar) (bodyDate : option string) (bodyHit : option bool)
| ReqScan (cal : Calendar) (file : option string) (protocol host createdAt : string)
| ReqUploads
| ReqPostMeals (id createdAt : string) (body : MealBody)
| ReqGetMeals (sort : list Meal -> list Meal) (cal : Calendar) (queryDate : option string).

Definition withStore (srv : Server) (st : Store) : Server :=
  {| srv_store := st; srv_user := srv_user srv; srv_uploads := srv_uploads srv |}.

(** The store after a request. *)
Definition handle (srv : Server) (rq : Request) : Server :=
  match rq with
  | ReqBootstrap body => fst (postBootstrap srv body)
  | ReqSummary _ _ => srv
  | ReqStreaksLog cal bodyDate bodyHit =>
      withStore srv (fst (postStreaksLog cal (srv_store srv) bodyDate bodyHit))
  | ReqScan cal file protocol host createdAt =>
      fst (scanAnalyze cal srv file protocol host createdAt)
  | ReqUploads => srv
  | ReqPostMeals id createdAt body =>
      withStore srv (fst (postMeals (srv_store srv) id createdAt body))
  | ReqGetMeals sort cal queryDate =>
      withStore srv (fst (getMeals sort cal (srv_store srv) queryDate))
  end.

(** The store after a sequence of requests. *)
Definition run (srv : Server) (requests : list Request) : Server :=
  fold_left handle requests srv.

(** The decimal numeral of an integer, as a client writes it in a query. *)
Definition decimal (z : Z) : string :=
  NilEmpty.string_of_int (Z.to_int z).

(** ** Predicates of the specification *)

(** A non-negative integer counter. *)
Definition isCounter (a : num) : bool :=
  Num.isInteger a && Num.le (Fin 0) a.

(** All five fields of a MacroSet satisfy [P]. *)
Definition fieldsAll (P : num -> bool) (m : MacroSet) : bool :=
  P (caloriesKcal m) && P (proteinG m) && P (carbsG m) && P (fatG m) && P (fiberG m).




(** The macro fields of a body that [Math.round(v || 0)] turns into a
    counter: every value but an infinity and a number below [-1/2]. *)
Definition fieldOk (v : jsval) : bool :=
  match v with
  | JNum (Fin q) => Qle_bool (- (1 # 2)) q
  | JNum PosInf | JNum NegInf => false
  | _ => true
  end.

Definition bodyAll (F : jsval -> bool) (m : MacrosBody) : bool :=
  F (body_caloriesKcal m) && F (body_proteinG m) && F (body_carbsG m)
  && F (body_fatG m) && F (body_fiberG m).

(** The fields of every MacroSet held by the store satisfy [P]: the goal,
    and the macros of every logged meal. *)
Definition storeAll (P : num -> bool) (st : Store) : Prop :=
  match user_goals st with Some g => fieldsAll P g = true | None => True end /\
  forall d items, mealsByDate st !! d = Some items ->
    Forall (fun m => fieldsAll P (macros m) = true) items.


(** *** Runs of hit days, in the words of the specification *)

Definition allHit (run : list DayStat) : Prop :=
  Forall (fun d => hit d = true) run.

Definition allMiss (run : list DayStat) : Prop :=
  Forall (fun d => hit d = false) run.

(** [run] is a stretch of consecutive hit days of the window. *)
Definition isRun (window run : list DayStat) : Prop :=
  exists before after, window = before ++ run ++ after /\ allHit run.

(** [n] is the length of the longest run of consecutive hit days anywhere
    in the window. *)
Definition longestRunIs (window : list DayStat) (n : nat) : Prop :=
  (exists run, isRun window run /\ length run = n) /\
  (forall run, isRun window run -> length run <= n).

(** [n] is the length of the run of hit days that ends at the last day:
    the window ends with [n] hits, and a miss (or the window start) comes
    before them. *)
Definition trailingRunIs (window : list DayStat) (n : nat) : Prop :=
  exists before run,
    window = before ++ run /\ allHit run /\ length run = n /\
    (before = [] \/ exists earlier d, before = earlier ++ [d] /\ hit d = false).

(** A concrete store: a goal of 2000 kcal, one meal of 2000 kcal on the
    first day, one of 3000 kcal on the second, and a third day that is
    marked done with nothing logged. *)
Definition sampleMeal (kcal : Q) : Meal :=
  mkMeal "meal_1" "Lunch" "Meal" None (mkMacroSet (Fin kcal) (Fin 30) (Fin 60) (Fin 10) (Fin 5))
         "2024-01-01T12:00:00.000Z".

Definition sampleStore : Store :=
  {| user_goals := Some (mkMacroSet (Fin 2000) (Fin 100) (Fin 275) (Fin 70) (Fin 30));
     mealsByDate := <["2024-01-01"%string := [sampleMeal 2000] ]>
                      (<["2024-01-02"%string := [sampleMeal 3000] ]> ∅);
     streakOverrides := <["2024-01-03"%string := true]> ∅ |}.

(** Request bodies of [POST /v1/meals]: one with plain counts, and one
    whose calories are negative. *)
Definition sampleBody : MealBody :=
  mkMealBody (Some "2024-01-05"%string) (Some "Snack"%string) None None
    (Some (mkMacrosBody (JNum (Fin (5201 # 10))) (JNum (Fin 38)) JNull JUndefined
                        (JNum (Fin (3 # 10))))).


(** A run of the server that only logs meals: each request comes with the
    [id] and [createdAt] of its item. *)
Definition logMeals (st : Store) (requests : list (string * string * MealBody)) : Store :=
  fold_left (fun st rq => fst (postMeals st (fst (fst rq)) (snd (fst rq)) (snd rq)))
            requests st.

(** A window of eight days: two hits, a miss, three hits, a miss, a hit. *)
Definition mixedDays : list DayStat :=
  map (fun h => mkDayStat "2024-01-01" h (if h then Fin 1 else Fin 0))
      [true; true; false; true; true; true; false; true].

(** A window of [n] days that are all hits, and one of misses. *)
Definition hitDays (n : nat) : list DayStat :=
  replicate n (mkDayStat "2024-01-01" true (Fin 1)).

Definition missDays (n : nat) : list DayStat :=
  replicate n (mkDayStat "2024-01-01" false (Fin 0)).

(** Requests under which the counters of the store stay non-negative
    integers: an onboarding whose weight is a finite number that is not
    negative, a meal whose macro fields are as [fieldOk] asks, and a
    listing whose sort only reorders. *)
Definition weightOk (body : BootstrapBody) : bool :=
  match bootWeightKg body with
  | Fin w => Qle_bool 0 w
  | _ => false
  end.



Definition emptyBody (kcal : jsval) : MealBody :=
  mkMealBody (Some "2024-01-05"%string) (Some "Snack"%string) None None
    (Some (mkMacrosBody kcal JUndefined JUndefined JUndefined JUndefined)).

(** Whether a string begins with a decimal digit, and whether it is made
    of white space only. *)
Definition startsWithDigit (s : string) : bool :=
  match s with
  | String c _ => match digitValue c with Some _ => true | None => false end
  | EmptyString => false
  end.


(** The integer that [Math.round] gives for a finite number. *)
Definition roundQ (q : Q) : Z := Qfloor (q + (1 # 2)).


(** An onboarding body with a weight in kilograms. *)
Definition bodyOfKg (goal : string) (kg : Q) : BootstrapBody :=
  mkBootstrapBody None JUndefined
    (Some (mkMeasure (Some "kg"%string) (JNum (Fin kg)) JUndefined JUndefined))
    None (Some goal) None.

(** A weight value of an onboarding body that is missing, [null], a
    boolean, or a finite number that is not negative. *)
Definition weightValueOk (v : jsval) : bool :=
  match v with
  | JNum (Fin q) => Qle_bool 0 q
  | JNum PosInf | JNum NegInf => false
  | _ => true
  end.

(** A calendar whose windows all end on 2024-01-05, and a run of five
    requests on that day. *)
Definition sampleCalendar : Calendar :=
  mkCalendar "2024-01-05"
    (fun daysCount i => if (Z.of_nat i =? daysCount - 1)%Z then "2024-01-05"%string
                        else "2023-12-31"%string).


(** * Properties *)

(** ** Numbers *)

Lemma Qle_bool_false (x y : Q) : Qle_bool x y = false <-> (y < x)%Q.
Proof.
  split; intros H.
  - apply Qnot_le_lt. intros Hle. apply Qle_bool_iff in Hle. congruence.
  - destruct (Qle_bool x y) eqn:E; [|reflexivity].
    apply Qle_bool_iff in E. lra.
Qed.

Lemma Qeq_bool_false (x y : Q) : Qeq_bool x y = false <-> ~ (x == y)%Q.
Proof.
  split; [apply Qeq_bool_neq|].
  intros H. destruct (Qeq_bool x y) eqn:E; [|reflexivity].
  apply Qeq_bool_iff in E. contradiction.
Qed.

(** A number above [x] is not at most a [y] below [x]. *)
Lemma gt_not_le (a : num) (x y : Q) :
  (y <= x)%Q -> Num.gt a (Fin x) = true -> Num.le a (Fin y) = false.
Proof.
  intros Hyx. destruct a as [q| | |]; simpl; try congruence.
  rewrite negb_true_iff, !Qle_bool_false. lra.
Qed.

(** The divisor of [deviation] is at least one, whatever the goal (when the
    goal is a number at all). *)
Lemma max_one_ge_one (g : num) :
  g <> NaN -> Num.le (Fin 1) (Math_max (Fin 1) g) = true.
Proof.
  destruct g as [q| | |]; simpl; try congruence; intros _; [|reflexivity].
  destruct (Qle_bool 1 q) eqn:E; simpl; [exact E|reflexivity].
Qed.

(** The cascade of [scoreOf], read as the tightest threshold met. *)
Lemma scoreOf_cascade (diff : num) :
  scoreOf diff =
    if Num.le diff (Fin (5 # 100)) then Fin 4
    else if Num.le diff (Fin (8 # 100)) then Fin 3
    else if Num.le diff (Fin (12 # 100)) then Fin 2
    else if Num.le diff (Fin (25 # 100)) then Fin 1
    else Fin 1.
Proof.
  unfold scoreOf.
  destruct (Num.le diff (Fin (5 # 100))), (Num.le diff (Fin (8 # 100))),
    (Num.le diff (Fin (12 # 100))), (Num.le diff (Fin (25 # 100)));
    reflexivity.
Qed.

Lemma scoreOf_values (diff : num) :
  scoreOf diff = Fin 1 \/ scoreOf diff = Fin 2 \/ scoreOf diff = Fin 3 \/ scoreOf diff = Fin 4.
Proof.
  rewrite scoreOf_cascade.
  destruct (Num.le diff (Fin (5 # 100))), (Num.le diff (Fin (8 # 100))),
    (Num.le diff (Fin (12 # 100))), (Num.le diff (Fin (25 # 100))); auto.
Qed.

Lemma scoreOf_far (diff : num) :
  Num.gt diff (Fin (25 # 100)) = true -> scoreOf diff = Fin 1.
Proof.
  intros H. rewrite scoreOf_cascade.
  rewrite (gt_not_le diff (25 # 100) (5 # 100)), (gt_not_le diff (25 # 100) (8 # 100)),
    (gt_not_le diff (25 # 100) (12 # 100)), (gt_not_le diff (25 # 100) (25 # 100));
    auto; apply Qle_bool_iff; reflexivity.
Qed.

(** ** The day classifier *)

Lemma dayStat_classify (st : Store) (d : string) :
  dayStat st d =
    classify d (streakOverrides st !! d) (goalCalories st) (caloriesKcal (totalsForDate st d)).
Proof. reflexivity. Qed.

(** The three ways [classify] decides [hit]: an override of [true], one of
    [false], or none and the meals decide. *)
Ltac classify_cases o t :=
  unfold classify; destruct o as [[|]|];
  [ reflexivity | reflexivity | destruct (Num.gt t (Fin 0)); reflexivity ].

Lemma classify_hit (d : string) (o : option bool) (g t : num) :
  hit (classify d o g t) = match o with Some b => b | None => Num.gt t (Fin 0) end.
Proof.
  classify_cases o t.
Qed.

Lemma classify_score (d : string) (o : option bool) (g t : num) :
  score (classify d o g t) =
    if hit (classify d o g t) then scoreOf (deviation t g) else Fin 0.
Proof.
  classify_cases o t.
Qed.

Lemma classify_date (d : string) (o : option bool) (g t : num) :
  date (classify d o g t) = d.
Proof.
  classify_cases o t.
Qed.

Example dayStat_on_goal :
  dayStat sampleStore "2024-01-01" = mkDayStat "2024-01-01" true (Fin 4).
Proof. reflexivity. Qed.

Example dayStat_far_above_goal :
  dayStat sampleStore "2024-01-02" = mkDayStat "2024-01-02" true (Fin 1).
Proof. reflexivity. Qed.

Example dayStat_nothing_logged :
  dayStat sampleStore "2024-01-04" = mkDayStat "2024-01-04" false (Fin 0).
Proof. reflexivity. Qed.

(** On every total from 0 to 6000 kcal, against the goals 0, 1, 1800, 2000,
    2200 and 2600, rounding the quotient to a double does not change the
    score. *)
Example doubles_agree :
  forallb (fun g => forallb (scoreAgrees g) (map Z.of_nat (seq 0 (Z.to_nat 6001))))
          [0; 1; 1800; 2000; 2200; 2600]%Z = true.
Proof. vm_compute. reflexivity. Qed.



Lemma classify_score_cases (d : string) (o : option bool) (g t : num) :
  (hit (classify d o g t) = false /\ score (classify d o g t) = Fin (inject_Z 0)) \/
  (hit (classify d o g t) = true /\
   exists k : Z, (1 <= k <= 4)%Z /\ score (classify d o g t) = Fin (inject_Z k)).
Proof.
  rewrite classify_score.
  destruct (hit (classify d o g t)); [right | left]; split; try reflexivity.
  destruct (scoreOf_values (deviation t g)) as [E|[E|[E|E]]]; rewrite E;
    [exists 1%Z | exists 2%Z | exists 3%Z | exists 4%Z]; (split; [lia | reflexivity]).
Qed.

(** C2. Whatever the date, goal, totals and override, the score of the
    classification is an integer from 0 to 4; it is positive only on a hit,
    and it is 0 on a miss. *)
Theorem classify_score_range (d : string) (o : option bool) (g t : num) :
  exists k : Z,
    score (classify d o g t) = Fin (inject_Z k) /\ (0 <= k <= 4)%Z /\
    ((0 < k)%Z -> hit (classify d o g t) = true) /\
    (hit (classify d o g t) = false -> k = 0%Z).
Proof.
  destruct (classify_score_cases d o g t) as [[Hh Hs] | [Hh (k & Hk & Hs)]].
  - exists 0%Z. split; [exact Hs|]. split; [lia|]. split; [lia | reflexivity].
  - exists k. split; [exact Hs|]. split; [lia|].
    split; [intros _; exact Hh | rewrite Hh; discriminate].
Qed.

(** The same of [dayStat], on every store. *)
Lemma dayStat_score_range (st : Store) (d : string) :
  exists k : Z,
    score (dayStat st d) = Fin (inject_Z k) /\ (0 <= k <= 4)%Z /\
    ((0 < k)%Z -> hit (dayStat st d) = true) /\
    (hit (dayStat st d) = false -> k = 0%Z).
Proof.
  rewrite dayStat_classify.
  destruct (classify_score_cases d (streakOverrides st !! d) (goalCalories st)
              (caloriesKcal (totalsForDate st d))) as [[Hh Hs] | [Hh (k & Hk & Hs)]].
  - exists 0%Z. split; [exact Hs|]. split; [lia|]. split; [lia | reflexivity].
  - exists k. split; [exact Hs|]. split; [lia|].
    split; [intros _; exact Hh | rewrite Hh; discriminate].
Qed.

(** A day without calories and without an override is a miss. *)
Lemma classify_no_calories (d : string) (g t : num) :
  Num.gt t (Fin 0) = false -> classify d None g t = mkDayStat d false (Fin 0).
Proof. intros H. unfold classify. rewrite H. reflexivity. Qed.

Lemma totals_no_meals (st : Store) (d : string) :
  mealsFor st d = [] -> totalsForDate st d = zeroMacros.
Proof. intros H. unfold totalsForDate. rewrite H. reflexivity. Qed.



(** The deviation of two finite numbers is the finite quotient: the branch
    of a zero divisor is not taken. *)
Lemma deviation_fin (t g : Q) :
  exists q : Q, deviation (Fin t) (Fin g) = Fin q /\
                (q == Qabs (t - g) / (if Qle_bool 1 g then g else 1))%Q.
Proof.
  unfold deviation. simpl.
  destruct (Qle_bool 1 g) eqn:E.
  - assert (Hz : Qeq_bool g 0 = false).
    { apply Qeq_bool_false. apply Qle_bool_iff in E. lra. }
    rewrite Hz. eexists. split; reflexivity.
  - eexists. split; reflexivity.
Qed.


(** C10. A date with an override of [true], no logged meals and a goal of at
    least 1 kcal is a hit of score exactly 1; for a finite goal the
    deviation is 1. *)
Theorem override_only_scores_one (st : Store) (d : string) :
  streakOverrides st !! d = Some true ->
  mealsFor st d = [] ->
  Num.le (Fin 1) (goalCalories st) = true ->
  hit (dayStat st d) = true /\ score (dayStat st d) = Fin 1 /\
  (forall g : Q, goalCalories st = Fin g ->
     exists q : Q, dayDiff st d = Fin q /\ (q == 1)%Q).
Proof.
  intros Ho Hm Hg.
  assert (Hdev : forall g : Q, goalCalories st = Fin g ->
            exists q : Q, dayDiff st d = Fin q /\ (q == 1)%Q).
  { intros g Eg. unfold dayDiff. rewrite (totals_no_meals st d Hm), Eg in *. simpl in Hg |- *.
    destruct (deviation_fin 0 g) as [q [E Hq]]. exists q. split; [exact E|].
    rewrite Hq, Hg. apply Qle_bool_iff in Hg.
    rewrite Qabs_neg by lra. field. lra. }
  rewrite dayStat_classify, Ho, classify_hit, classify_score, classify_hit.
  split; [reflexivity|]. split; [|exact Hdev].
  destruct (goalCalories st) as [g| | |] eqn:Eg; try discriminate.
  - destruct (Hdev g eq_refl) as [q [E Hq]]. unfold dayDiff in E. rewrite Eg in E.
    rewrite E. apply scoreOf_far. simpl. rewrite negb_true_iff, Qle_bool_false. lra.
  - rewrite (totals_no_meals st d Hm). reflexivity.
Qed.

Lemma override_only_scores_one_witness :
  streakOverrides sampleStore !! "2024-01-03"%string = Some true /\
  mealsFor sampleStore "2024-01-03" = [] /\
  Num.le (Fin 1) (goalCalories sampleStore) = true /\
  hit (dayStat sampleStore "2024-01-03") = true /\
  score (dayStat sampleStore "2024-01-03") = Fin 1.
Proof.
  destruct (override_only_scores_one sampleStore "2024-01-03" eq_refl eq_refl eq_refl)
    as [Hh [Hs _]].
  repeat (split; [reflexivity|]). split; assumption.
Defined.

(** ** Overrides *)

Lemma setOverride_lookup (st : Store) (d : string) (b : bool) :
  streakOverrides (setOverride st d b) !! d = Some b.
Proof. unfold setOverride. simpl. apply lookup_insert_eq. Qed.

Lemma setOverride_other (st : Store) (d d' : string) (b : bool) :
  d <> d' -> dayStat (setOverride st d b) d' = dayStat st d'.
Proof.
  intros Hne. rewrite !dayStat_classify. unfold setOverride. simpl.
  rewrite lookup_insert_ne by exact Hne. reflexivity.
Qed.

(** A scan with a file marks today as a hit. *)
Lemma scan_marks_today (cal : Calendar) (st : Store) :
  hit (dayStat (fst (postScanAnalyze cal st true)) (isoDate cal)) = true.
Proof.
  unfold postScanAnalyze. simpl.
  rewrite dayStat_classify, setOverride_lookup, classify_hit. reflexivity.
Qed.



(** ** The window *)

Lemma clamp_range (v : Z) : (1 <= clamp v 1 26 <= 26)%Z.
Proof. unfold clamp. lia. Qed.

Lemma weeksOf_range (weeks : option string) : (1 <= weeksOf weeks <= 26)%Z.
Proof. apply clamp_range. Qed.

Lemma buildSummary_days_length (cal : Calendar) (st : Store) (weeks : option string) :
  length (days (buildSummary cal st weeks)) = Z.to_nat (weeksOf weeks * 7).
Proof.
  unfold buildSummary, summarize. cbn [days].
  rewrite length_map, length_seq. reflexivity.
Qed.

Lemma buildSummary_weeks (cal : Calendar) (st : Store) (weeks : option string) :
  range_weeks (buildSummary cal st weeks) = weeksOf weeks.
Proof. reflexivity. Qed.

Example parseInt10_digits : parseInt10 "1000" = Some 1000%Z.
Proof. reflexivity. Qed.

Example parseInt10_letters : parseInt10 "abc" = None.
Proof. reflexivity. Qed.

Example parseInt10_prefix : parseInt10 "  -12px" = Some (-12)%Z.
Proof. reflexivity. Qed.

(** Too many weeks are cut to 26 (182 days). *)
Lemma buildSummary_weeks_1000 (cal : Calendar) (st : Store) :
  range_weeks (buildSummary cal st (Some "1000"%string)) = 26%Z /\
  length (days (buildSummary cal st (Some "1000"%string))) = 182.
Proof. rewrite buildSummary_days_length. split; reflexivity. Qed.

(** A value that does not parse, and a missing one, are 12 weeks (84 days). *)
Lemma buildSummary_weeks_default (cal : Calendar) (st : Store) :
  range_weeks (buildSummary cal st (Some "abc"%string)) = 12%Z /\
  length (days (buildSummary cal st (Some "abc"%string))) = 84 /\
  range_weeks (buildSummary cal st None) = 12%Z /\
  length (days (buildSummary cal st None)) = 84.
Proof. rewrite !buildSummary_days_length. repeat split; reflexivity. Qed.

(** A negative count is raised to 1 week (7 days). *)
Lemma buildSummary_weeks_negative (cal : Calendar) (st : Store) :
  range_weeks (buildSummary cal st (Some "-3"%string)) = 1%Z /\
  length (days (buildSummary cal st (Some "-3"%string))) = 7.
Proof. rewrite buildSummary_days_length. split; reflexivity. Qed.

(** A count that parses to a non-zero integer is clamped into [1, 26]. *)
Lemma weeksOf_parsed (s : string) (n : Z) :
  parseInt10 s = Some n -> n <> 0%Z -> weeksOf (Some s) = Z.max 1 (Z.min 26 n).
Proof.
  intros Hp Hn. unfold weeksOf, weeksOrDefault, clamp. rewrite Hp.
  destruct n; [contradiction | reflexivity | reflexivity].
Qed.

(** C4, at the input ["0"].  The count parses to 0, which [|| 12] replaces
    by the default before [clamp] sees it: the window is 12 weeks (84
    days), not 1 week. *)
Theorem buildSummary_weeks_zero (cal : Calendar) (st : Store) :
  parseInt10 "0" = Some 0%Z /\
  range_weeks (buildSummary cal st (Some "0"%string)) = 12%Z /\
  length (days (buildSummary cal st (Some "0"%string))) = 84.
Proof. rewrite buildSummary_days_length. repeat split; reflexivity. Qed.

(** ** The streak counters *)

Lemma forwardLoop_snoc (l : list DayStat) (d : DayStat) :
  forwardLoop (l ++ [d]) = streakStep (forwardLoop l) d.
Proof. unfold forwardLoop. rewrite fold_left_app. reflexivity. Qed.

Lemma trailingLoop_acc (l : list DayStat) (n : nat) :
  trailingLoop l n = n + trailingLoop l 0.
Proof.
  revert n. induction l as [|d l IH]; intros n; simpl; [lia|].
  destruct (hit d); [|lia].
  rewrite (IH (S n)), (IH 1). lia.
Qed.

(** The running counter is never above the best one. *)
Lemma fold_cur_le_best (l : list DayStat) (c b : nat) :
  c <= b ->
  fst (fold_left streakStep l (c, b)) <= snd (fold_left streakStep l (c, b)).
Proof.
  revert c b. induction l as [|d l IH]; intros c b Hcb; simpl; [exact Hcb|].
  destruct (hit d); apply IH; lia.
Qed.

(** The best counter never goes down. *)
Lemma fold_best_mono (l : list DayStat) (c b : nat) :
  b <= snd (fold_left streakStep l (c, b)).
Proof.
  revert c b. induction l as [|d l IH]; intros c b; simpl; [lia|].
  destruct (hit d).
  - specialize (IH (S c) (Nat.max b (S c))). lia.
  - apply IH.
Qed.

(** Over a stretch of hits both counters grow with the stretch. *)
Lemma fold_all_hit (l : list DayStat) (c b : nat) :
  allHit l -> c <= b ->
  fold_left streakStep l (c, b) = (c + length l, Nat.max b (c + length l)).
Proof.
  revert c b. induction l as [|d l IH]; intros c b Hl Hcb; simpl.
  - f_equal; lia.
  - inversion Hl as [|? ? Hd Hl']; subst. rewrite Hd.
    rewrite IH by (auto; lia). f_equal; lia.
Qed.

(** Over a stretch of misses the best counter stays and the running one
    is reset. *)
Lemma fold_all_miss (l : list DayStat) (c b : nat) :
  allMiss l ->
  fold_left streakStep l (c, b) = (match l with [] => c | _ => 0 end, b).
Proof.
  revert c b. induction l as [|d l IH]; intros c b Hl; simpl; [reflexivity|].
  inversion Hl as [|? ? Hd Hl']; subst. rewrite Hd.
  rewrite IH by exact Hl'. destruct l; reflexivity.
Qed.

(** The forward counter [cur] ends as what the backward loop counts. *)
Lemma forward_cur_is_trailing (l : list DayStat) :
  fst (forwardLoop l) = trailingLoop (rev l) 0.
Proof.
  induction l as [|d l IH] using rev_ind; [reflexivity|].
  rewrite forwardLoop_snoc, rev_app_distr. simpl.
  destruct (forwardLoop l) as [c b]. simpl in *.
  destruct (hit d); simpl; [|reflexivity].
  rewrite trailingLoop_acc, <- IH. reflexivity.
Qed.

Lemma trailing_le_best (l : list DayStat) :
  trailingLoop (rev l) 0 <= snd (forwardLoop l).
Proof.
  rewrite <- forward_cur_is_trailing. apply fold_cur_le_best. lia.
Qed.

(** What the backward loop counts, on the days from the last one down. *)
Lemma trailingLoop_spec (l : list DayStat) :
  exists run rest,
    l = run ++ rest /\ allHit run /\ trailingLoop l 0 = length run /\
    (rest = [] \/ exists d rest', rest = d :: rest' /\ hit d = false).
Proof.
  induction l as [|d l IH].
  - exists [], []. repeat split; [constructor | left; reflexivity].
  - simpl. destruct (hit d) eqn:Hd.
    + destruct IH as (run & rest & El & Hrun & Hn & Hrest).
      exists (d :: run), rest. split; [simpl; congruence|].
      split; [constructor; assumption|].
      split; [rewrite trailingLoop_acc, Hn; reflexivity | exact Hrest].
    + exists [], (d :: l). split; [reflexivity|]. split; [constructor|].
      split; [reflexivity|]. right. exists d, l. split; [reflexivity | exact Hd].
Qed.

Lemma allHit_rev (l : list DayStat) : allHit l -> allHit (rev l).
Proof.
  unfold allHit. rewrite !List.Forall_forall. intros H x Hx.
  apply H. apply in_rev. exact Hx.
Qed.

Lemma trailing_is_trailing_run (l : list DayStat) :
  trailingRunIs l (trailingLoop (rev l) 0).
Proof.
  destruct (trailingLoop_spec (rev l)) as (run & rest & El & Hrun & Hn & Hrest).
  exists (rev rest), (rev run).
  split.
  { rewrite <- rev_app_distr, <- El. symmetry. apply rev_involutive. }
  split; [apply allHit_rev; exact Hrun|].
  split; [rewrite length_rev; symmetry; exact Hn|].
  destruct Hrest as [E | (d & rest' & E & Hd)]; subst rest.
  - left. reflexivity.
  - right. exists (rev rest'), d. split; [reflexivity | exact Hd].
Qed.

(** Every run of the window is counted by the forward loop. *)
Lemma best_bounds_runs (l run : list DayStat) :
  isRun l run -> length run <= snd (forwardLoop l).
Proof.
  intros (before & after & El & Hrun). subst l.
  unfold forwardLoop. rewrite !fold_left_app.
  destruct (fold_left streakStep before (0, 0)) as [c b] eqn:E.
  assert (Hcb : c <= b).
  { pose proof (fold_cur_le_best before 0 0 (Nat.le_refl 0)) as H.
    rewrite E in H. exact H. }
  rewrite (fold_all_hit run c b Hrun Hcb).
  pose proof (fold_best_mono after (c + length run) (Nat.max b (c + length run))).
  lia.
Qed.

(** The forward loop ends on the length of some run, with [cur] the length
    of a run at the end of the window. *)
Lemma forwardLoop_runs (l : list DayStat) :
  (exists before run, l = before ++ run /\ allHit run /\ length run = fst (forwardLoop l)) /\
  (exists run, isRun l run /\ length run = snd (forwardLoop l)).
Proof.
  induction l as [|d l IH] using rev_ind.
  - split.
    + exists [], []. repeat split. constructor.
    + exists []. split; [|reflexivity]. exists [], []. split; [reflexivity | constructor].
  - destruct IH as [(before & suf & El & Hsuf & Hc) (run & (pre & post & Er & Hrun) & Hb)].
    pose proof (fold_cur_le_best l 0 0 (Nat.le_refl 0)) as Hcb. fold (forwardLoop l) in Hcb.
    rewrite forwardLoop_snoc.
    destruct (forwardLoop l) as [c b]. simpl in Hc, Hb, Hcb. unfold streakStep.
    destruct (hit d) eqn:Hd; simpl.
    + assert (Hsuf' : allHit (suf ++ [d])).
      { apply Forall_app. split; [exact Hsuf | repeat constructor; exact Hd]. }
      split.
      * exists before, (suf ++ [d]). split; [rewrite El at 1; rewrite <- app_assoc; reflexivity|].
        split; [exact Hsuf'|]. rewrite length_app. simpl. lia.
      * destruct (Nat.max_spec b (S c)) as [[Hlt Hmax]|[Hle Hmax]]; rewrite Hmax.
        -- exists (suf ++ [d]). split; [|rewrite length_app; simpl; lia].
           exists before, []. split; [|exact Hsuf'].
           rewrite app_nil_r. rewrite El at 1. rewrite <- app_assoc. reflexivity.
        -- exists run. split; [|exact Hb].
           exists pre, (post ++ [d]). split; [|exact Hrun].
           rewrite Er at 1. rewrite <- !app_assoc. reflexivity.
    + split.
      * exists (l ++ [d]), []. split; [rewrite app_nil_r; reflexivity|].
        split; [constructor | reflexivity].
      * exists run. split; [|exact Hb].
        exists pre, (post ++ [d]). split; [|exact Hrun].
        rewrite Er at 1. rewrite <- !app_assoc. reflexivity.
Qed.

Lemma best_is_longest_run (l : list DayStat) :
  longestRunIs l (snd (forwardLoop l)).
Proof.
  split; [apply forwardLoop_runs | intros run; apply best_bounds_runs].
Qed.

Example summarize_mixed :
  let s := summarize 12 (Fin 2000) mixedDays in
  currentStreak s = 1 /\ bestStreak s = 3 /\ hits7 s = 5 /\ hits30 s = 6 /\ earnedTiers s = [].
Proof. repeat split; reflexivity. Qed.

(** C6. For every sequence of classified days the best streak is at least
    the current streak; the best streak is the length of the longest run of
    consecutive hit days anywhere in the window, the current streak the
    length of the run of hit days that ends at the last day.  The same
    holds of every summary that [buildSummary] returns. *)
Theorem bestStreak_ge_currentStreak :
  (forall (w : Z) (goalCal : num) (window : list DayStat),
      let s := summarize w goalCal window in
      currentStreak s <= bestStreak s /\
      longestRunIs window (bestStreak s) /\
      trailingRunIs window (currentStreak s)) /\
  (forall (cal : Calendar) (st : Store) (weeks : option string),
      currentStreak (buildSummary cal st weeks) <= bestStreak (buildSummary cal st weeks)).
Proof.
  split.
  - intros w goalCal window. cbn [summarize currentStreak bestStreak].
    split; [apply trailing_le_best|].
    split; [apply best_is_longest_run | apply trailing_is_trailing_run].
  - intros cal st weeks. unfold buildSummary. cbn [summarize currentStreak bestStreak].
    apply trailing_le_best.
Qed.

Lemma countHits_all_miss (l : list DayStat) : allMiss l -> countHits l = 0.
Proof.
  unfold countHits. induction 1 as [|d l Hd Hl IH]; simpl; [reflexivity|].
  rewrite Hd. exact IH.
Qed.

Lemma countHits_all_hit (l : list DayStat) : allHit l -> countHits l = length l.
Proof.
  unfold countHits. induction 1 as [|d l Hd Hl IH]; simpl; [reflexivity|].
  rewrite Hd. simpl. f_equal. exact IH.
Qed.

Lemma sliceLast_all_miss (n : nat) (l : list DayStat) :
  allMiss l -> allMiss (sliceLast n l).
Proof. apply Forall_drop. Qed.

Lemma sliceLast_length {A : Type} (n : nat) (l : list A) :
  length (sliceLast n l) = Nat.min n (length l).
Proof. unfold sliceLast. rewrite length_skipn. lia. Qed.

Lemma tiers_all_earned (best : nat) :
  120 <= best ->
  List.filter (fun t => (t <=? best)%nat) BADGE_Tiers = [7; 14; 30; 60; 90; 120].
Proof.
  intros H. unfold BADGE_Tiers. cbn [List.filter].
  rewrite !(proj2 (Nat.leb_le _ best)) by lia. reflexivity.
Qed.

Lemma forwardLoop_all_hit (l : list DayStat) :
  allHit l -> forwardLoop l = (length l, length l).
Proof.
  intros H. unfold forwardLoop. rewrite fold_all_hit by (auto; lia).
  f_equal; lia.
Qed.

Lemma forwardLoop_all_miss (l : list DayStat) :
  allMiss l -> forwardLoop l = (0, 0).
Proof.
  intros H. unfold forwardLoop. rewrite fold_all_miss by exact H.
  destruct l; reflexivity.
Qed.

(** C8. The earned tiers are the tiers of the list 7, 14, 30, 60, 90, 120
    that are at most the best streak, in that order.  A window of hits only,
    of 120 days or more, earns all six; a window of misses only earns none
    and has its four counters at 0. *)
Theorem earnedTiers_spec :
  (forall (w : Z) (goalCal : num) (window : list DayStat),
      earnedTiers (summarize w goalCal window) =
        List.filter (fun t => (t <=? bestStreak (summarize w goalCal window))%nat)
                    [7; 14; 30; 60; 90; 120]) /\
  (forall (w : Z) (goalCal : num) (window : list DayStat),
      allHit window -> 120 <= length window ->
      earnedTiers (summarize w goalCal window) = [7; 14; 30; 60; 90; 120]) /\
  (forall (w : Z) (goalCal : num) (window : list DayStat),
      allMiss window ->
      let s := summarize w goalCal window in
      currentStreak s = 0 /\ bestStreak s = 0 /\ hits7 s = 0 /\ hits30 s = 0 /\
      earnedTiers s = []).
Proof.
  split; [reflexivity|]. split.
  - intros w goalCal window Hall Hlen. cbn [summarize earnedTiers].
    rewrite forwardLoop_all_hit by exact Hall. cbn [snd].
    apply tiers_all_earned. exact Hlen.
  - intros w goalCal window Hall.
    cbn [summarize currentStreak bestStreak hits7 hits30 earnedTiers].
    rewrite <- forward_cur_is_trailing, forwardLoop_all_miss by exact Hall.
    rewrite !countHits_all_miss by (apply sliceLast_all_miss; exact Hall).
    repeat split; reflexivity.
Qed.

Lemma earnedTiers_spec_witness :
  allHit (hitDays 120) /\ 120 <= length (hitDays 120) /\
  earnedTiers (summarize 18 (Fin 2000) (hitDays 120)) = [7; 14; 30; 60; 90; 120] /\
  allMiss (missDays 84) /\
  earnedTiers (summarize 12 (Fin 2000) (missDays 84)) = [].
Proof.
  assert (Hh : allHit (hitDays 120)) by (apply Forall_replicate; reflexivity).
  assert (Hm : allMiss (missDays 84)) by (apply Forall_replicate; reflexivity).
  assert (Hl : 120 <= length (hitDays 120)).
  { unfold hitDays. rewrite length_replicate. lia. }
  split; [exact Hh|]. split; [exact Hl|].
  split; [exact (proj1 (proj2 earnedTiers_spec) 18%Z (Fin 2000) (hitDays 120) Hh Hl)|].
  split; [exact Hm|].
  apply (proj2 (proj2 earnedTiers_spec) 12%Z (Fin 2000) (missDays 84) Hm).
Defined.

(** A window of hits only counts its last 7 and last 30 days in full. *)
Lemma hits_all_hit (w : Z) (goalCal : num) (window : list DayStat) :
  allHit window ->
  let s := summarize w goalCal window in
  currentStreak s = length window /\ bestStreak s = length window /\
  hits7 s = Nat.min 7 (length window) /\ hits30 s = Nat.min 30 (length window).
Proof.
  intros Hall. cbn [summarize currentStreak bestStreak hits7 hits30].
  rewrite <- forward_cur_is_trailing, forwardLoop_all_hit by exact Hall.
  rewrite !countHits_all_hit by (apply Forall_drop; exact Hall).
  rewrite !sliceLast_length. repeat split; reflexivity.
Qed.

(** ** Logged macros *)

Lemma Qfloor_nonneg (x : Q) : (0 <= Qfloor x)%Z <-> (0 <= x)%Q.
Proof.
  pose proof (Qfloor_le x) as Hlo. pose proof (Qlt_floor x) as Hhi.
  split; intros H.
  - rewrite Zle_Qle in H. change (inject_Z 0) with 0%Q in H. lra.
  - assert (Hlt : (inject_Z (-1) < inject_Z (Qfloor x))%Q).
    { rewrite inject_Z_plus in Hhi. change (inject_Z 1) with 1%Q in Hhi.
      change (inject_Z (-1)) with (-1)%Q. lra. }
    rewrite <- Zlt_Qlt in Hlt. lia.
Qed.

Lemma isCounter_inject (z : Z) : isCounter (Fin (inject_Z z)) = (0 <=? z)%Z.
Proof.
  unfold isCounter, Num.isInteger, Num.le. rewrite Qfloor_Z, Qeq_bool_refl.
  rewrite andb_true_l. change 0%Q with (inject_Z 0).
  destruct (0 <=? z)%Z eqn:E.
  - apply Qle_bool_iff. apply Z.leb_le in E. rewrite Zle_Qle in E. exact E.
  - apply Qle_bool_false. apply Z.leb_gt in E. rewrite Zlt_Qlt in E. exact E.
Qed.

(** What [Math.round] makes of a finite number is a counter exactly from
    [-1/2] on. *)
Lemma isCounter_round (q : Q) :
  isCounter (Math_round (Fin q)) = Qle_bool (- (1 # 2)) q.
Proof.
  unfold Math_round. rewrite isCounter_inject.
  destruct (Qle_bool (- (1 # 2)) q) eqn:E.
  - apply Z.leb_le. apply Qfloor_nonneg. apply Qle_bool_iff in E. lra.
  - apply Z.leb_gt. apply Qle_bool_false in E.
    destruct (Z.lt_ge_cases (Qfloor (q + (1 # 2))) 0) as [Hlt|Hge]; [exact Hlt|].
    apply Qfloor_nonneg in Hge. lra.
Qed.

(** The stored field is a counter exactly for the values of [fieldOk]. *)
Lemma isCounter_roundOrZero (v : jsval) : isCounter (roundOrZero v) = fieldOk v.
Proof.
  destruct v as [| |[|]|[q| | |]]; try reflexivity.
  unfold roundOrZero, truthy, Num.truthy, fieldOk.
  destruct (Qeq_bool q 0) eqn:E; simpl negb; cbv iota; cbn [ToNumber].
  - apply Qeq_bool_iff in E. symmetry. rewrite (Qleb_comp _ _ (Qeq_refl _) _ _ E).
    reflexivity.
  - apply isCounter_round.
Qed.




Lemma isCounter_spec (a : num) :
  isCounter a = true <->
  exists (q : Q) (n : Z), a = Fin q /\ (q == inject_Z n)%Q /\ (0 <= n)%Z.
Proof.
  unfold isCounter. split.
  - destruct a as [q| | |]; simpl; try discriminate.
    rewrite andb_true_iff, Qeq_bool_iff, Qle_bool_iff. intros [Hi Hp].
    exists q, (Qfloor q). split; [reflexivity|]. split; [exact Hi|].
    apply Qfloor_nonneg. exact Hp.
  - intros (q & n & -> & Hq & Hn). simpl.
    rewrite andb_true_iff, Qeq_bool_iff, Qle_bool_iff.
    rewrite (Qfloor_comp _ _ Hq), Qfloor_Z. split; [exact Hq|].
    rewrite Hq. rewrite Zle_Qle in Hn. exact Hn.
Qed.


Lemma isCounter_add (a b : num) :
  isCounter a = true -> isCounter b = true -> isCounter (Num.add a b) = true.
Proof.
  rewrite !isCounter_spec.
  intros (x & n & -> & Hx & Hn) (y & k & -> & Hy & Hk).
  exists (x + y)%Q, (n + k)%Z. split; [reflexivity|]. split; [|lia].
  rewrite inject_Z_plus, Hx, Hy. reflexivity.
Qed.

(** A property [P] of numbers that holds of 0 and of sums, and that a
    rounded body field has exactly when the field satisfies [F], is kept by
    the meal log and its totals. *)
Section MacroInvariant.

Variable P : num -> bool.
Variable F : jsval -> bool.
Hypothesis P_zero : P (Fin 0) = true.
Hypothesis P_add : forall a b, P a = true -> P b = true -> P (Num.add a b) = true.
Hypothesis P_round : forall v, P (roundOrZero v) = F v.

Lemma fieldsAll_iff (m : MacroSet) :
  fieldsAll P m = true <->
  P (caloriesKcal m) = true /\ P (proteinG m) = true /\ P (carbsG m) = true /\
  P (fatG m) = true /\ P (fiberG m) = true.
Proof. unfold fieldsAll. rewrite !andb_true_iff. tauto. Qed.

Lemma fieldsAll_roundMacros (m : MacrosBody) :
  fieldsAll P (roundMacros m) = bodyAll F m.
Proof.
  unfold fieldsAll, roundMacros, bodyAll. cbn [caloriesKcal proteinG carbsG fatG fiberG].
  rewrite !P_round. reflexivity.
Qed.

Lemma fieldsAll_addMacros (acc : MacroSet) (m : Meal) :
  fieldsAll P acc = true -> fieldsAll P (macros m) = true ->
  fieldsAll P (addMacros acc m) = true.
Proof.
  rewrite !fieldsAll_iff. unfold addMacros. cbn [caloriesKcal proteinG carbsG fatG fiberG].
  intros (A1 & A2 & A3 & A4 & A5) (B1 & B2 & B3 & B4 & B5).
  repeat split; apply P_add; assumption.
Qed.

Lemma fieldsAll_fold (items : list Meal) (acc : MacroSet) :
  fieldsAll P acc = true ->
  Forall (fun m => fieldsAll P (macros m) = true) items ->
  fieldsAll P (fold_left addMacros items acc) = true.
Proof.
  revert acc. induction items as [|m items IH]; intros acc Hacc Hall; simpl; [exact Hacc|].
  inversion Hall as [|? ? Hm Hrest]; subst.
  apply IH; [apply fieldsAll_addMacros; assumption | exact Hrest].
Qed.

Lemma storeAll_mealsFor (st : Store) (d : string) :
  storeAll P st -> Forall (fun m => fieldsAll P (macros m) = true) (mealsFor st d).
Proof.
  intros [_ H]. unfold mealsFor.
  destruct (mealsByDate st !! d) as [items|] eqn:E; [apply (H d items E) | constructor].
Qed.

(** The totals of every date of such a store satisfy [P]. *)
Lemma storeAll_totals (st : Store) (d : string) :
  storeAll P st -> fieldsAll P (totalsForDate st d) = true.
Proof.
  intros Hst. unfold totalsForDate. apply fieldsAll_fold.
  - unfold fieldsAll, zeroMacros. cbn [caloriesKcal proteinG carbsG fatG fiberG].
    rewrite P_zero. reflexivity.
  - apply storeAll_mealsFor. exact Hst.
Qed.

Lemma postMeals_keeps (st : Store) (id createdAt : string) (body : MealBody) :
  storeAll P st ->
  (forall m, body_macros body = Some m -> bodyAll F m = true) ->
  let r := postMeals st id createdAt body in
  storeAll P (fst r) /\
  (forall d, fieldsAll P (totalsForDate (fst r) d) = true) /\
  (forall item totals, snd r = Ok (item, totals) ->
     fieldsAll P (macros item) = true /\ fieldsAll P totals = true).
Proof.
  intros Hst Hbody r.
  assert (Hok : storeAll P (fst r)).
  { subst r. unfold postMeals.
    destruct (truthyStr (body_date body)) as [d|]; [|exact Hst].
    destruct (truthyStr (body_type body)) as [type|]; [|exact Hst].
    destruct (body_macros body) as [m|] eqn:Em; [|exact Hst].
    cbn [fst]. destruct Hst as [Hg Hm]. split; [exact Hg|].
    cbn [mealsByDate]. intros d' items Hl.
    destruct (decide (d = d')) as [<-|Hne].
    - rewrite lookup_insert_eq in Hl. injection Hl as <-.
      constructor.
      + cbn [macros]. rewrite fieldsAll_roundMacros. apply Hbody. reflexivity.
      + apply storeAll_mealsFor. split; assumption.
    - rewrite lookup_insert_ne in Hl by exact Hne. apply (Hm d' items Hl). }
  split; [exact Hok|]. split; [intros d; apply storeAll_totals; exact Hok|].
  intros item totals Hr. subst r. unfold postMeals in *.
  destruct (truthyStr (body_date body)) as [d|]; [|discriminate].
  destruct (truthyStr (body_type body)) as [type|]; [|discriminate].
  destruct (body_macros body) as [m|] eqn:Em; [|discriminate].
  cbn [fst snd] in *. injection Hr as <- <-. split.
  - cbn [macros]. rewrite fieldsAll_roundMacros. apply Hbody. reflexivity.
  - apply storeAll_totals. exact Hok.
Qed.

End MacroInvariant.

Lemma store0_ok : storeAll isCounter store0.
Proof.
  split; [reflexivity|]. intros d items H. simpl in H.
  rewrite lookup_empty in H. discriminate.
Qed.

Lemma counters_are_integral (st : Store) : storeAll isCounter st -> storeAll Num.isInteger st.
Proof.
  assert (Hf : forall m, fieldsAll isCounter m = true -> fieldsAll Num.isInteger m = true).
  { intros m. unfold fieldsAll, isCounter. rewrite !andb_true_iff. tauto. }
  intros [Hg Hm]. split.
  - destruct (user_goals st); [apply Hf; exact Hg | exact I].
  - intros d items Hl. specialize (Hm d items Hl).
    eapply Forall_impl; [exact Hm|]. intros m. apply Hf.
Qed.



(** From the initial store, any run of such requests leaves a store of
    counters. *)
Lemma logMeals_wellFormed (requests : list (string * string * MealBody)) :
  Forall (fun rq => forall m, body_macros (snd rq) = Some m -> bodyAll fieldOk m = true)
         requests ->
  storeAll isCounter (logMeals store0 requests).
Proof.
  unfold logMeals. generalize store0 store0_ok.
  induction requests as [|rq requests IH]; intros st Hst Hall; simpl; [exact Hst|].
  inversion Hall as [|? ? Hrq Hrest]; subst.
  apply IH; [|exact Hrest].
  apply (postMeals_keeps isCounter fieldOk eq_refl isCounter_add isCounter_roundOrZero
           st (fst (fst rq)) (snd (fst rq)) (snd rq) Hst Hrq).
Qed.

Example postMeals_rounds :
  snd (postMeals store0 "meal_1" "2024-01-05T08:00:00.000Z" sampleBody) =
    Ok (mkMeal "meal_1" "Snack" "Meal" None
               (mkMacroSet (Fin 520) (Fin 38) (Fin 0) (Fin 0) (Fin 0))
               "2024-01-05T08:00:00.000Z",
        mkMacroSet (Fin 520) (Fin 38) (Fin 0) (Fin 0) (Fin 0)).
Proof. reflexivity. Qed.


(** * Further properties of the server *)

(** ** Totals *)

Lemma Qplus_comm_eq (x y : Q) : (x + y)%Q = (y + x)%Q.
Proof. unfold Qplus. f_equal; [ring | apply Pos.mul_comm]. Qed.

Lemma Qplus_assoc_eq (x y z : Q) : (x + y + z)%Q = (x + (y + z))%Q.
Proof.
  unfold Qplus. simpl. f_equal; [|symmetry; apply Pos.mul_assoc].
  rewrite !Pos2Z.inj_mul. ring.
Qed.

(** Addition of numbers is commutative and associative, the non-finite
    ones included. *)
Lemma add_comm (a b : num) : Num.add a b = Num.add b a.
Proof.
  destruct a, b; simpl; try reflexivity. f_equal. apply Qplus_comm_eq.
Qed.

Lemma add_assoc (a b c : num) : Num.add (Num.add a b) c = Num.add a (Num.add b c).
Proof.
  destruct a, b, c; simpl; try reflexivity. f_equal. apply Qplus_assoc_eq.
Qed.

Lemma add_swap (a b c : num) : Num.add (Num.add a b) c = Num.add (Num.add a c) b.
Proof. rewrite !add_assoc. f_equal. apply add_comm. Qed.

Lemma addMacros_swap (acc : MacroSet) (m1 m2 : Meal) :
  addMacros (addMacros acc m1) m2 = addMacros (addMacros acc m2) m1.
Proof.
  unfold addMacros. cbn [caloriesKcal proteinG carbsG fatG fiberG].
  f_equal; apply add_swap.
Qed.

Lemma fold_addMacros_perm (l l' : list Meal) :
  Permutation l l' ->
  forall acc, fold_left addMacros l acc = fold_left addMacros l' acc.
Proof.
  induction 1 as [|m l l' _ IH|m1 m2 l|l l' l'' _ IH1 _ IH2]; intros acc; simpl.
  - reflexivity.
  - apply IH.
  - rewrite addMacros_swap. reflexivity.
  - rewrite IH1. apply IH2.
Qed.

Lemma fold_addMacros_cons (m : Meal) (l : list Meal) (acc : MacroSet) :
  fold_left addMacros (m :: l) acc = addMacros (fold_left addMacros l acc) m.
Proof.
  rewrite (fold_addMacros_perm (m :: l) (l ++ [m])).
  - rewrite fold_left_app. reflexivity.
  - apply Permutation_cons_append.
Qed.



(** What an accepted [POST /v1/meals] does to the store. *)
Lemma postMeals_accepted (st : Store) (id createdAt : string) (body : MealBody)
    (item : Meal) (totals : MacroSet) :
  snd (postMeals st id createdAt body) = Ok (item, totals) ->
  exists d type m,
    truthyStr (body_date body) = Some d /\ truthyStr (body_type body) = Some type /\
    body_macros body = Some m /\
    macros item = roundMacros m /\
    fst (postMeals st id createdAt body) =
      {| user_goals := user_goals st;
         mealsByDate := <[d := item :: mealsFor st d]> (mealsByDate st);
         streakOverrides := streakOverrides st |} /\
    totals = totalsForDate (fst (postMeals st id createdAt body)) d.
Proof.
  unfold postMeals.
  destruct (truthyStr (body_date body)) as [d|]; [|discriminate].
  destruct (truthyStr (body_type body)) as [type|]; [|discriminate].
  destruct (body_macros body) as [m|]; [|discriminate].
  cbn [fst snd]. intros H. injection H as <- <-.
  exists d, type, m. repeat split; reflexivity.
Qed.

Lemma mealsFor_insert (st : Store) (d d' : string) (items : list Meal) (g : option MacroSet)
    (o : gmap string bool) :
  mealsFor {| user_goals := g; mealsByDate := <[d := items]> (mealsByDate st);
              streakOverrides := o |} d' =
    if decide (d = d') then items else mealsFor st d'.
Proof.
  unfold mealsFor. cbn [mealsByDate]. rewrite lookup_insert.
  destruct (decide (d = d')); reflexivity.
Qed.





(** A counter plus a positive number is positive. *)
Lemma add_counter_positive (a b : num) :
  isCounter a = true -> Num.gt b (Fin 0) = true -> Num.gt (Num.add a b) (Fin 0) = true.
Proof.
  intros Ha Hb. apply isCounter_spec in Ha. destruct Ha as (x & n & -> & Hx & Hn).
  rewrite Zle_Qle in Hn. change (inject_Z 0) with 0%Q in Hn.
  destruct b as [y| | |]; simpl in *; try discriminate; [|reflexivity].
  rewrite negb_true_iff, Qle_bool_false in *. lra.
Qed.

(** Adding zero to a number that is not positive leaves it not positive. *)
Lemma add_zero_not_positive (a b : num) :
  Num.gt a (Fin 0) = false -> a <> NaN -> (exists y, b = Fin y /\ (y == 0)%Q) ->
  Num.gt (Num.add a b) (Fin 0) = false.
Proof.
  intros Ha Hn (y & -> & Hy).
  destruct a as [x| | |]; simpl in *; try congruence.
  rewrite negb_false_iff, Qle_bool_iff in *. lra.
Qed.

(** X4. On a store of counters, and a date without override, a meal whose
    calories round to a positive number makes the date a hit; a meal whose
    calories round to 0 leaves a date without calories a miss, whatever its
    other macros. *)
Theorem postMeals_hit (st : Store) (id createdAt : string) (body : MealBody)
    (d : string) (item : Meal) (totals : MacroSet) :
  storeAll isCounter st ->
  streakOverrides st !! d = None ->
  truthyStr (body_date body) = Some d ->
  snd (postMeals st id createdAt body) = Ok (item, totals) ->
  (Num.gt (caloriesKcal (macros item)) (Fin 0) = true ->
   hit (dayStat (fst (postMeals st id createdAt body)) d) = true) /\
  (caloriesKcal (macros item) = Fin 0 -> hit (dayStat st d) = false ->
   hit (dayStat (fst (postMeals st id createdAt body)) d) = false).
Proof.
  intros Hst Ho Hd Hr.
  destruct (postMeals_accepted _ _ _ _ _ _ Hr) as (d0 & type & m & Hd0 & _ & _ & _ & Hst' & Ht).
  assert (d0 = d) by congruence. subst d0.
  assert (Hcal : caloriesKcal (totalsForDate (fst (postMeals st id createdAt body)) d) =
                 Num.add (caloriesKcal (totalsForDate st d)) (caloriesKcal (macros item))).
  { rewrite Hst'. unfold totalsForDate. rewrite mealsFor_insert.
    destruct (decide (d = d)); [|contradiction].
    rewrite fold_addMacros_cons. reflexivity. }
  assert (Hov : streakOverrides (fst (postMeals st id createdAt body)) !! d = None).
  { rewrite Hst'. exact Ho. }
  assert (Hold : isCounter (caloriesKcal (totalsForDate st d)) = true).
  { pose proof (storeAll_totals isCounter eq_refl isCounter_add st d Hst) as H.
    apply fieldsAll_iff in H. tauto. }
  rewrite !dayStat_classify, !classify_hit, Hov, Ho, Hcal. split.
  - intros Hpos. apply add_counter_positive; assumption.
  - intros Hz Hmiss. rewrite Hz. apply add_zero_not_positive; [exact Hmiss | |].
    + apply isCounter_spec in Hold. destruct Hold as (x & n & E & _). rewrite E. discriminate.
    + exists 0%Q. split; reflexivity.
Qed.

Lemma postMeals_hit_witness :
  storeAll isCounter store0 /\
  streakOverrides store0 !! "2024-01-05"%string = None /\
  hit (dayStat store0 "2024-01-05") = false /\
  hit (dayStat (fst (postMeals store0 "meal_1" "t" (emptyBody (JNum (Fin 180))))) "2024-01-05") = true /\
  hit (dayStat (fst (postMeals store0 "meal_1" "t" (emptyBody (JNum (Fin (2 # 10)))))) "2024-01-05")
    = false.
Proof.
  split; [exact store0_ok|]. split; [reflexivity|]. split; [reflexivity|]. split.
  - apply (proj1 (postMeals_hit store0 "meal_1" "t" (emptyBody (JNum (Fin 180))) "2024-01-05"
                    _ _ store0_ok eq_refl eq_refl eq_refl)).
    reflexivity.
  - apply (proj2 (postMeals_hit store0 "meal_1" "t" (emptyBody (JNum (Fin (2 # 10)))) "2024-01-05"
                    _ _ store0_ok eq_refl eq_refl eq_refl)); reflexivity.
Defined.

(** ** Listing the meals of a date *)






(** ** Logging a streak day *)



(** ** Scans and uploads *)

Lemma scanAnalyze_store (cal : Calendar) (srv : Server) (file : option string)
    (protocol host createdAt : string) :
  srv_store (fst (scanAnalyze cal srv file protocol host createdAt)) =
    fst (postScanAnalyze cal (srv_store srv) (bool_decide (file <> None))).
Proof. destruct file; reflexivity. Qed.

(** X8. A scan without a file answers 400 and changes nothing.  A scan with
    a file records an upload whose id is the file name and whose url is
    ["/uploads/"] followed by it, lists it first among the uploads, where it
    pushes out the twentieth, marks today as a hit, and leaves every other
    date, the meals and the goal as they were. *)
Theorem scanAnalyze_records (cal : Calendar) (srv : Server) (protocol host createdAt : string) :
  (let r := scanAnalyze cal srv None protocol host createdAt in
   fst r = srv /\ snd r = Status400 "no_file") /\
  (forall filename,
     let r := scanAnalyze cal srv (Some filename) protocol host createdAt in
     exists rec,
       snd r = Ok rec /\
       up_id rec = filename /\ up_url rec = ("/uploads/" ++ filename)%string /\
       up_absoluteUrl rec = (protocol ++ "://" ++ host ++ up_url rec)%string /\
       getUploads (fst r) = rec :: firstn 19 (srv_uploads srv) /\
       hit (dayStat (srv_store (fst r)) (isoDate cal)) = true /\
       (forall d, isoDate cal <> d ->
          dayStat (srv_store (fst r)) d = dayStat (srv_store srv) d) /\
       (forall d, totalsForDate (srv_store (fst r)) d = totalsForDate (srv_store srv) d) /\
       user_goals (srv_store (fst r)) = user_goals (srv_store srv)).
Proof.
  split; [split; reflexivity|].
  intros filename r. subst r. unfold scanAnalyze. cbn [fst snd].
  eexists. split; [reflexivity|]. cbn [up_id up_url up_absoluteUrl srv_store].
  repeat (split; [reflexivity|]). split.
  - rewrite dayStat_classify, setOverride_lookup, classify_hit. reflexivity.
  - split; [|split; reflexivity].
    intros d Hne. apply setOverride_other. exact Hne.
Qed.

(** The uploads listed are at most twenty, the most recent ones, most
    recent first. *)
Lemma getUploads_recent (srv : Server) :
  length (getUploads srv) = Nat.min 20 (length (srv_uploads srv)) /\
  exists older, srv_uploads srv = getUploads srv ++ older.
Proof.
  unfold getUploads. split; [apply length_firstn|].
  exists (skipn 20 (srv_uploads srv)). symmetry. apply firstn_skipn.
Qed.

(** ** The score as a function of the deviation *)

Lemma le_trans_fin (a b : num) (c : Q) :
  Num.le a b = true -> Num.le b (Fin c) = true -> Num.le a (Fin c) = true.
Proof.
  destruct a as [x| | |], b as [y| | |]; simpl; try congruence.
  rewrite !Qle_bool_iff. intros H1 H2. lra.
Qed.

(** X9. The score does not go up when the deviation goes up: of two
    deviations that compare, the smaller one scores at least as much. *)
Theorem scoreOf_antitone (d1 d2 : num) :
  Num.le d1 d2 = true -> Num.le (scoreOf d2) (scoreOf d1) = true.
Proof.
  intros H. rewrite !scoreOf_cascade.
  pose proof (le_trans_fin d1 d2 (5 # 100) H) as H5.
  pose proof (le_trans_fin d1 d2 (8 # 100) H) as H8.
  pose proof (le_trans_fin d1 d2 (12 # 100) H) as H12.
  destruct (Num.le d2 (Fin (5 # 100))); [rewrite H5 by reflexivity; reflexivity|].
  destruct (Num.le d2 (Fin (8 # 100)));
    [rewrite H8 by reflexivity; destruct (Num.le d1 (Fin (5 # 100))); reflexivity|].
  destruct (Num.le d2 (Fin (12 # 100)));
    [rewrite H12 by reflexivity;
     destruct (Num.le d1 (Fin (5 # 100))), (Num.le d1 (Fin (8 # 100))); reflexivity|].
  destruct (Num.le d2 (Fin (25 # 100)));
    destruct (Num.le d1 (Fin (5 # 100))), (Num.le d1 (Fin (8 # 100))),
      (Num.le d1 (Fin (12 # 100))), (Num.le d1 (Fin (25 # 100))); reflexivity.
Qed.

Lemma scoreOf_antitone_witness :
  Num.le (Fin (6 # 100)) (Fin (10 # 100)) = true /\
  Num.le (scoreOf (Fin (10 # 100))) (scoreOf (Fin (6 # 100))) = true.
Proof.
  split; [reflexivity|]. apply (scoreOf_antitone (Fin (6 # 100)) (Fin (10 # 100))). reflexivity.
Defined.




(** ** The window of the summary *)

Lemma lookup_map_seq {B : Type} (f : nat -> B) (n i : nat) :
  i < n -> map f (seq 0 n) !! i = Some (f i).
Proof.
  intros Hi. change (map f (seq 0 n)) with (f <$> seq 0 n).
  rewrite list_lookup_fmap.
  assert (H : seq 0 n !! i = Some i) by (apply lookup_seq; split; [reflexivity | exact Hi]).
  rewrite H. reflexivity.
Qed.

Lemma dayStat_date (st : Store) (d : string) : date (dayStat st d) = d.
Proof. rewrite dayStat_classify. apply classify_date. Qed.

(** X11. Whatever the [weeks] of the query, the summary covers a whole
    number of weeks from 1 to 26, so from 7 to 182 days; its [i]-th day is
    the classification of the [i]-th date of the window; and its range is
    never empty: it starts at the first date of the window and ends at the
    last one. *)
Theorem buildSummary_window (cal : Calendar) (st : Store) (weeks : option string) :
  let s := buildSummary cal st weeks in
  let daysCount := (range_weeks s * 7)%Z in
  (1 <= range_weeks s <= 26)%Z /\
  Z.of_nat (length (days s)) = daysCount /\
  7 <= length (days s) <= 182 /\
  (forall i, i < length (days s) ->
     days s !! i = Some (dayStat st (windowKey cal daysCount i)) /\
     option_map date (days s !! i) = Some (windowKey cal daysCount i)) /\
  range_start s = Some (windowKey cal daysCount 0) /\
  range_end s = Some (windowKey cal daysCount (length (days s) - 1)).
Proof.
  intros s daysCount.
  pose proof (weeksOf_range weeks) as Hw.
  assert (Hlen : length (days s) = Z.to_nat daysCount).
  { subst s daysCount. rewrite buildSummary_days_length. reflexivity. }
  assert (Hdays : days s = map (fun i => dayStat st (windowKey cal daysCount i))
                               (seq 0 (Z.to_nat daysCount))) by reflexivity.
  assert (Hpos : 7 <= Z.to_nat daysCount <= 182).
  { subst daysCount s. rewrite buildSummary_weeks. lia. }
  assert (Hlook : forall i, i < length (days s) ->
            days s !! i = Some (dayStat st (windowKey cal daysCount i))).
  { intros i Hi. rewrite Hdays.
    apply (lookup_map_seq (fun i => dayStat st (windowKey cal daysCount i))). lia. }
  split; [exact Hw|]. split; [subst daysCount s; rewrite Hlen, buildSummary_weeks; lia|].
  split; [lia|]. split; [|split].
  - intros i Hi. split; [apply Hlook; exact Hi|].
    rewrite (Hlook i Hi). simpl. rewrite dayStat_date. reflexivity.
  - change (range_start s) with (option_map date (head (days s))).
    rewrite head_lookup, Hlook by lia. simpl. rewrite dayStat_date. reflexivity.
  - change (range_end s) with (option_map date (last (days s))).
    rewrite last_lookup.
    replace (Init.Nat.pred (length (days s))) with (length (days s) - 1) by lia.
    rewrite Hlook by lia. simpl. rewrite dayStat_date. reflexivity.
Qed.

(** ** Bounds on the counters *)

Lemma countHits_app (l1 l2 : list DayStat) :
  countHits (l1 ++ l2) = countHits l1 + countHits l2.
Proof. unfold countHits. rewrite List.filter_app, length_app. reflexivity. Qed.

Lemma countHits_le_length (l : list DayStat) : countHits l <= length l.
Proof.
  unfold countHits. induction l as [|d l IH]; simpl; [lia|].
  destruct (hit d); simpl; lia.
Qed.

Lemma countHits_skipn (k : nat) (l : list DayStat) : countHits (skipn k l) <= countHits l.
Proof.
  rewrite <- (firstn_skipn k l) at 2. rewrite countHits_app. lia.
Qed.

Lemma sliceLast_sliceLast {A : Type} (a b : nat) (l : list A) :
  a <= b -> sliceLast a l = skipn (length l - a - (length l - b)) (sliceLast b l).
Proof.
  intros Hab. unfold sliceLast. rewrite skipn_skipn. f_equal. lia.
Qed.

(** The run at the end of the window is counted among the last [k] days,
    as far as it fits. *)
Lemma trailing_run_in_last (k : nat) (l : list DayStat) :
  Nat.min (trailingLoop (rev l) 0) k <= countHits (sliceLast k l).
Proof.
  destruct (trailing_is_trailing_run l) as (before & run & El & Hrun & Hlen & _).
  rewrite <- Hlen. clear Hlen. subst l. unfold sliceLast.
  rewrite skipn_app, countHits_app, length_app.
  assert (Hsuf : allHit (skipn (length before + length run - k - length before) run)).
  { apply Forall_drop. exact Hrun. }
  rewrite (countHits_all_hit _ Hsuf), length_skipn. lia.
Qed.

(** The best streak is made of hit days of the window. *)
Lemma best_le_hits (l : list DayStat) : snd (forwardLoop l) <= countHits l.
Proof.
  destruct (forwardLoop_runs l) as [_ (run & (before & after & El & Hrun) & Hlen)].
  rewrite <- Hlen. clear Hlen. subst l.
  rewrite !countHits_app, (countHits_all_hit run Hrun). lia.
Qed.

(** X12. In every summary: at most 7 hits among the last 7 days and 30
    among the last 30; the hits of the last 7 days are among those of the
    last 30; the current streak shows in both counts as far as it fits; and
    the best streak is at most the number of hit days of the window. *)
Theorem summary_counter_bounds (w : Z) (goalCal : num) (window : list DayStat) :
  let s := summarize w goalCal window in
  hits7 s <= Nat.min 7 (length window) /\
  hits30 s <= Nat.min 30 (length window) /\
  hits7 s <= hits30 s /\
  hits30 s <= countHits window /\
  Nat.min (currentStreak s) 7 <= hits7 s /\
  Nat.min (currentStreak s) 30 <= hits30 s /\
  bestStreak s <= countHits window /\
  countHits window <= length window.
Proof.
  cbn [summarize hits7 hits30 currentStreak bestStreak].
  split.
  { rewrite <- sliceLast_length. apply countHits_le_length. }
  split.
  { rewrite <- sliceLast_length. apply countHits_le_length. }
  split.
  { rewrite (sliceLast_sliceLast 7 30 window) by lia. apply countHits_skipn. }
  split; [apply countHits_skipn|].
  split; [apply trailing_run_in_last|].
  split; [apply trailing_run_in_last|].
  split; [apply best_le_hits | apply countHits_le_length].
Qed.

(** ** Tiers *)

Lemma tiers_prefix (best : nat) :
  exists k, List.filter (fun t => (t <=? best)%nat) BADGE_Tiers = firstn k BADGE_Tiers.
Proof.
  unfold BADGE_Tiers. cbn [List.filter].
  destruct (Nat.leb_spec 7 best), (Nat.leb_spec 14 best), (Nat.leb_spec 30 best),
    (Nat.leb_spec 60 best), (Nat.leb_spec 90 best), (Nat.leb_spec 120 best);
    try (exfalso; lia);
    first [ exists 0; reflexivity | exists 1; reflexivity | exists 2; reflexivity
          | exists 3; reflexivity | exists 4; reflexivity | exists 5; reflexivity
          | exists 6; reflexivity ].
Qed.

Lemma forwardLoop_app_best (l l' : list DayStat) :
  snd (forwardLoop l) <= snd (forwardLoop (l ++ l')).
Proof.
  unfold forwardLoop. rewrite fold_left_app.
  destruct (fold_left streakStep l (0, 0)) as [c b]. apply fold_best_mono.
Qed.

(** X13. The tiers are earned in their order: the earned tiers are a
    prefix of the list 7, 14, 30, 60, 90, 120, empty exactly when the best
    streak is below 7.  More days after a window never lower its best streak
    and never take a tier away. *)
Theorem earnedTiers_in_order (w : Z) (goalCal : num) (window : list DayStat) :
  let s := summarize w goalCal window in
  (exists k, earnedTiers s = firstn k BADGE_Tiers) /\
  (earnedTiers s = [] <-> bestStreak s < 7) /\
  (forall later,
     let s' := summarize w goalCal (window ++ later) in
     bestStreak s <= bestStreak s' /\
     forall t, In t (earnedTiers s) -> In t (earnedTiers s')).
Proof.
  cbn [summarize earnedTiers bestStreak]. split; [apply tiers_prefix|]. split.
  - unfold BADGE_Tiers. cbn [List.filter].
    destruct (Nat.leb_spec 7 (snd (forwardLoop window))) as [H|H].
    + split; [discriminate | lia].
    + split; [intros _; exact H|]. intros _.
      rewrite !(proj2 (Nat.leb_gt _ _)) by lia. reflexivity.
  - intros later. pose proof (forwardLoop_app_best window later) as Hb.
    split; [exact Hb|]. intros t. rewrite !filter_In.
    intros [Hin Hle]. split; [exact Hin|]. apply Nat.leb_le in Hle. apply Nat.leb_le. lia.
Qed.

(** ** Reading the weeks of the query *)

Lemma digitsPrefix_step (c : ascii) (v : Z) (rest : string) (acc : option Z) :
  digitValue c = Some v ->
  digitsPrefix (String c rest) acc = digitsPrefix rest (Some (10 * default 0%Z acc + v)%Z).
Proof. intros H. simpl. rewrite H. reflexivity. Qed.

Lemma digitsPrefix_stop (suffix : string) (acc : option Z) :
  startsWithDigit suffix = false -> digitsPrefix suffix acc = acc.
Proof.
  destruct suffix as [|c rest]; simpl; [reflexivity|].
  destruct (digitValue c); [discriminate | reflexivity].
Qed.

Lemma append_cons (c : ascii) (s1 s2 : string) :
  (String c s1 ++ s2)%string = String c (s1 ++ s2)%string.
Proof. reflexivity. Qed.

Lemma append_nil (s : string) : (EmptyString ++ s)%string = s.
Proof. reflexivity. Qed.

Lemma append_empty_r (s : string) : (s ++ "")%string = s.
Proof. induction s as [|c s IH]; [reflexivity | rewrite append_cons, IH; reflexivity]. Qed.

(** The digits of a numeral, read after some digits of value [p]. *)
Lemma digitsPrefix_uint_acc (u : Decimal.uint) (p : positive) (suffix : string) :
  startsWithDigit suffix = false ->
  digitsPrefix (NilEmpty.string_of_uint u ++ suffix) (Some (Z.pos p)) =
    Some (Z.pos (Pos.of_uint_acc u p)).
Proof.
  intros Hs. revert p.
  induction u as [|u IH|u IH|u IH|u IH|u IH|u IH|u IH|u IH|u IH|u IH]; intros p;
    cbn [NilEmpty.string_of_uint Pos.of_uint_acc]; rewrite ?append_cons, ?append_nil;
    [apply digitsPrefix_stop; exact Hs | ..];
    (erewrite digitsPrefix_step by reflexivity); rewrite <- IH; do 2 f_equal;
    cbn [default from_option id];
    match goal with
    | |- context [Z.of_nat ?n] =>
        let v := eval vm_compute in (Z.of_nat n) in change (Z.of_nat n) with v
    end; lia.
Qed.

(** The same from the start of the digits. *)
Lemma digitsPrefix_uint (u : Decimal.uint) (suffix : string) :
  startsWithDigit suffix = false ->
  digitsPrefix (NilEmpty.string_of_uint u ++ suffix) (Some 0%Z) =
    Some (Z.of_N (Pos.of_uint u)).
Proof.
  intros Hs.
  induction u as [|u IH|u IH|u IH|u IH|u IH|u IH|u IH|u IH|u IH|u IH];
    cbn [NilEmpty.string_of_uint Pos.of_uint]; rewrite ?append_cons, ?append_nil;
    [apply digitsPrefix_stop; exact Hs | ..];
    (erewrite digitsPrefix_step by reflexivity);
    [exact IH | ..]; apply (digitsPrefix_uint_acc u _ suffix Hs).
Qed.

Lemma digitsPrefix_first (c : ascii) (v : Z) (rest : string) :
  digitValue c = Some v ->
  digitsPrefix (String c rest) None = digitsPrefix (String c rest) (Some 0%Z).
Proof. intros H. rewrite !(digitsPrefix_step c v) by exact H. reflexivity. Qed.

(** A string that begins with a digit has no white space to skip and no
    sign. *)
Lemma parseInt10_digit_head (c : ascii) (v : Z) (rest : string) :
  digitValue c = Some v ->
  parseInt10 (String c rest) =
    match digitsPrefix (String c rest) None with
    | Some n => Some (1 * n)%Z
    | None => None
    end.
Proof.
  destruct c as [[] [] [] [] [] [] [] []]; try discriminate; intros _; reflexivity.
Qed.

Lemma parseInt10_minus (rest : string) :
  parseInt10 (String "-"%char rest) =
    match digitsPrefix rest None with
    | Some n => Some (-1 * n)%Z
    | None => None
    end.
Proof. reflexivity. Qed.

Lemma uint_head (u : Decimal.uint) (suffix : string) :
  u <> Decimal.Nil ->
  exists c v rest, (NilEmpty.string_of_uint u ++ suffix)%string = String c rest /\
                   digitValue c = Some v.
Proof.
  destruct u; [contradiction | ..]; intros _;
    cbn [NilEmpty.string_of_uint]; rewrite append_cons; do 3 eexists; split; reflexivity.
Qed.

Lemma digits_of_positive (p : positive) (suffix : string) :
  startsWithDigit suffix = false ->
  exists c v rest,
    (NilEmpty.string_of_uint (Pos.to_uint p) ++ suffix)%string = String c rest /\
    digitValue c = Some v /\
    digitsPrefix (String c rest) None = Some (Z.pos p).
Proof.
  intros Hs.
  destruct (uint_head (Pos.to_uint p) suffix (DecimalPos.Unsigned.to_uint_nonnil p))
    as (c & v & rest & E & Hc).
  exists c, v, rest. split; [exact E|]. split; [exact Hc|].
  rewrite (digitsPrefix_first c v rest Hc), <- E, (digitsPrefix_uint _ suffix Hs).
  rewrite DecimalPos.Unsigned.of_to. reflexivity.
Qed.

Lemma parseInt10_decimal_suffix (z : Z) (suffix : string) :
  startsWithDigit suffix = false ->
  parseInt10 (decimal z ++ suffix) = Some z.
Proof.
  intros Hs. unfold decimal. destruct z as [|p|p]; cbn [Z.to_int NilEmpty.string_of_int].
  - cbn [NilEmpty.string_of_uint]. rewrite append_cons, append_nil.
    rewrite (parseInt10_digit_head "0" 0 suffix eq_refl).
    rewrite (digitsPrefix_step "0" 0 suffix None eq_refl).
    rewrite (digitsPrefix_stop suffix _ Hs). reflexivity.
  - destruct (digits_of_positive p suffix Hs) as (c & v & rest & E & Hc & Hd).
    rewrite E, (parseInt10_digit_head c v rest Hc), Hd. reflexivity.
  - destruct (digits_of_positive p suffix Hs) as (c & v & rest & E & Hc & Hd).
    rewrite append_cons, parseInt10_minus, E, Hd. reflexivity.
Qed.




(** X15. A query [weeks=n] written as a decimal numeral gives [n] weeks for
    [n] from 1 to 26, 26 weeks above, 1 week for a negative [n], and the
    default of 12 weeks for 0; the window has 7 days for each week. *)
Theorem weeksOf_decimal (cal : Calendar) (st : Store) (z : Z) :
  let s := buildSummary cal st (Some (decimal z)) in
  range_weeks s = (if (z =? 0)%Z then 12 else Z.max 1 (Z.min 26 z))%Z /\
  ((1 <= z <= 26)%Z -> range_weeks s = z) /\
  Z.of_nat (length (days s)) = (7 * range_weeks s)%Z.
Proof.
  intros s.
  assert (Hp : parseInt10 (decimal z) = Some z).
  { rewrite <- (parseInt10_decimal_suffix z "" eq_refl), append_empty_r. reflexivity. }
  assert (Hw : range_weeks s = (if (z =? 0)%Z then 12 else Z.max 1 (Z.min 26 z))%Z).
  { subst s. rewrite buildSummary_weeks.
    destruct (Z.eqb_spec z 0) as [->|Hne]; [reflexivity|].
    apply weeksOf_parsed; assumption. }
  split; [exact Hw|]. split.
  - intros Hz. rewrite Hw. destruct (Z.eqb_spec z 0); lia.
  - subst s. rewrite buildSummary_days_length, buildSummary_weeks.
    pose proof (weeksOf_range (Some (decimal z))). lia.
Qed.

(** ** The plan *)

Lemma floor_spec (x : Q) (z : Z) :
  Qfloor x = z <-> (inject_Z z <= x < inject_Z z + 1)%Q.
Proof.
  pose proof (Qfloor_le x) as Hlo. pose proof (Qlt_floor x) as Hhi.
  rewrite inject_Z_plus in Hhi. change (inject_Z 1) with 1%Q in Hhi.
  split.
  - intros <-. split; assumption.
  - intros [H1 H2].
    assert (A : (Qfloor x < z + 1)%Z).
    { rewrite Zlt_Qlt, inject_Z_plus. change (inject_Z 1) with 1%Q. lra. }
    assert (B : (z < Qfloor x + 1)%Z).
    { rewrite Zlt_Qlt, inject_Z_plus. change (inject_Z 1) with 1%Q. lra. }
    lia.
Qed.


Lemma roundQ_int (q : Q) (z : Z) : (q == inject_Z z)%Q -> roundQ q = z.
Proof. intros H. unfold roundQ. apply floor_spec. rewrite H. split; lra. Qed.


Lemma Math_round_fin (q : Q) : Math_round (Fin q) = Fin (inject_Z (roundQ q)).
Proof. reflexivity. Qed.

(** Rounding twice is rounding once. *)
Lemma Math_round_idem (a : num) : Math_round (Math_round a) = Math_round a.
Proof.
  destruct a as [q| | |]; try reflexivity.
  rewrite !Math_round_fin. f_equal. f_equal. apply roundQ_int. reflexivity.
Qed.




Example fabricatePlan_default :
  plan_macros (fabricatePlan "maintain" (Fin 25) (Fin 70) (Fin (175 # 100))) =
    mkMacroSet (Fin 2100) (Fin 126) (Fin 273) (Fin 56) (Fin 30).
Proof. reflexivity. Qed.







(** ** Onboarding *)







(** The counters of the summary look at the hits of the days only. *)
Section SameHits.

Context {K : Type} (f g : K -> DayStat).
Hypothesis same_hit : forall x, hit (f x) = hit (g x).

Lemma fold_streakStep_map (l : list K) (acc : nat * nat) :
  fold_left streakStep (map f l) acc = fold_left streakStep (map g l) acc.
Proof.
  revert acc. induction l as [|x l IH]; intros acc; simpl; [reflexivity|].
  unfold streakStep at 2 4. rewrite same_hit. apply IH.
Qed.

Lemma trailingLoop_map (l : list K) (n : nat) :
  trailingLoop (map f l) n = trailingLoop (map g l) n.
Proof.
  revert n. induction l as [|x l IH]; intros n; simpl; [reflexivity|].
  rewrite same_hit. destruct (hit (g x)); [apply IH | reflexivity].
Qed.

Lemma countHits_map (l : list K) : countHits (map f l) = countHits (map g l).
Proof.
  unfold countHits. induction l as [|x l IH]; simpl; [reflexivity|].
  rewrite same_hit. destruct (hit (g x)); simpl; rewrite IH; reflexivity.
Qed.

Lemma summarize_map (w : Z) (goalCal goalCal' : num) (l : list K) :
  let s := summarize w goalCal (map f l) in
  let s' := summarize w goalCal' (map g l) in
  currentStreak s = currentStreak s' /\ bestStreak s = bestStreak s' /\
  hits7 s = hits7 s' /\ hits30 s = hits30 s' /\ earnedTiers s = earnedTiers s'.
Proof.
  cbn [summarize currentStreak bestStreak hits7 hits30 earnedTiers].
  unfold forwardLoop, sliceLast. rewrite fold_streakStep_map.
  rewrite <- !map_rev, trailingLoop_map.
  rewrite !length_map, !skipn_map, !countHits_map.
  repeat split; reflexivity.
Qed.

End SameHits.

(** X19. An onboarding changes the scores of the days but none of their
    hits: in every summary the current streak, the best streak, the hits of
    the last 7 and 30 days and the earned tiers are what they were before
    it, and so are the totals of every date. *)
Theorem postBootstrap_keeps_streaks (srv : Server) (body : BootstrapBody) :
  let st := srv_store srv in
  let st' := srv_store (fst (postBootstrap srv body)) in
  (forall d, hit (dayStat st' d) = hit (dayStat st d) /\
             totalsForDate st' d = totalsForDate st d) /\
  (forall cal weeks,
     let s := buildSummary cal st weeks in
     let s' := buildSummary cal st' weeks in
     currentStreak s' = currentStreak s /\ bestStreak s' = bestStreak s /\
     hits7 s' = hits7 s /\ hits30 s' = hits30 s /\ earnedTiers s' = earnedTiers s /\
     range_start s' = range_start s /\ range_end s' = range_end s /\
     length (days s') = length (days s)).
Proof.
  intros st st'.
  assert (Hhit : forall d, hit (dayStat st' d) = hit (dayStat st d)).
  { intros d. rewrite !dayStat_classify, !classify_hit. reflexivity. }
  split; [intros d; split; [apply Hhit | reflexivity]|].
  intros cal weeks s s'.
  destruct (summarize_map
              (fun i => dayStat st' (windowKey cal (weeksOf weeks * 7) i))
              (fun i => dayStat st (windowKey cal (weeksOf weeks * 7) i))
              (fun i => Hhit _) (weeksOf weeks) (goalCalories st') (goalCalories st)
              (seq 0 (Z.to_nat (weeksOf weeks * 7)))) as (H1 & H2 & H3 & H4 & H5).
  split; [exact H1|]. split; [exact H2|]. split; [exact H3|]. split; [exact H4|].
  split; [exact H5|].
  pose proof (weeksOf_range weeks) as Hw.
  subst s s'. unfold buildSummary, summarize. cbn [range_start range_end days].
  rewrite !length_map. split; [|split; [|reflexivity]].
  - rewrite !head_lookup.
    rewrite !(lookup_map_seq (fun i => dayStat _ (windowKey cal (weeksOf weeks * 7) i))) by lia.
    simpl. rewrite !dayStat_date. reflexivity.
  - rewrite !last_lookup, !length_map, length_seq.
    rewrite !(lookup_map_seq (fun i => dayStat _ (windowKey cal (weeksOf weeks * 7) i))) by lia.
    simpl. rewrite !dayStat_date. reflexivity.
Qed.

(** ** What every run of the server keeps *)







(** X21. An onboarding whose weight value is missing, [null], a boolean or
    a finite number that is not negative, in kilograms, in pounds or without
    a unit, comes out with a finite weight that is not negative; a value
    that is missing, [null], [false], 0 or [NaN] is replaced by 70 kg, or by
    154 lb when the unit is pounds, and without a known unit the weight is
    70 kg whatever the value. *)
Theorem bootWeightKg_ok (body : BootstrapBody) :
  let v := measureValue (boot_weight body) m_value in
  (weightValueOk v = true -> weightOk body = true) /\
  (truthy v = false ->
     bootWeightKg body =
       if unitIs (boot_weight body) "kg" then Fin 70
       else if unitIs (boot_weight body) "lb" then lbToKg (Fin 154)
       else Fin 70) /\
  (unitIs (boot_weight body) "kg" = false -> unitIs (boot_weight body) "lb" = false ->
     bootWeightKg body = Fin 70).
Proof.
  intros v. unfold weightOk, bootWeightKg. fold v.
  split; [|split].
  - intros Hv.
    assert (Hn : forall dflt : Q, (0 < dflt)%Q ->
              exists q, numberOr v (Fin dflt) = Fin q /\ (0 <= q)%Q).
    { intros dflt Hd. unfold numberOr.
      destruct v as [| |[|]|[q| | |]]; simpl in Hv |- *; try discriminate;
        try (exists dflt; split; [reflexivity | lra]).
      - exists 1%Q. split; [reflexivity | lra].
      - destruct (Qeq_bool q 0); simpl;
          [exists dflt; split; [reflexivity | lra]
          | exists q; split; [reflexivity | apply Qle_bool_iff; exact Hv]]. }
    destruct (unitIs (boot_weight body) "kg").
    + destruct (Hn 70%Q ltac:(lra)) as (q & -> & Hq). apply Qle_bool_iff. exact Hq.
    + destruct (unitIs (boot_weight body) "lb"); [|reflexivity].
      destruct (Hn 154%Q ltac:(lra)) as (q & -> & Hq).
      unfold lbToKg, Num.div. change (Qeq_bool (220462262 # 100000000) 0) with false.
      cbv iota. apply Qle_bool_iff.
      apply Qle_shift_div_l; [reflexivity | lra].
  - intros Hv.
    assert (Hn : forall dflt, numberOr v dflt = dflt).
    { intros dflt. unfold numberOr.
      destruct v as [| |[|]|[q| | |]]; simpl in Hv |- *; try discriminate; try reflexivity.
      apply negb_false_iff in Hv. rewrite Hv. reflexivity. }
    rewrite !Hn. reflexivity.
  - intros -> ->. reflexivity.
Qed.

Lemma bootWeightKg_ok_witness :
  weightValueOk (measureValue (boot_weight (bodyOfKg "gain" 80)) m_value) = true /\
  weightOk (bodyOfKg "gain" 80) = true.
Proof.
  split; [reflexivity|].
  apply (proj1 (bootWeightKg_ok (bodyOfKg "gain" 80))). reflexivity.
Defined.

(** ** Today in the summary *)

Lemma trailing_last (l : list DayStat) (d : DayStat) :
  trailingLoop (rev (l ++ [d])) 0 =
    if hit d then S (trailingLoop (rev l) 0) else 0.
Proof.
  rewrite rev_app_distr. simpl. destruct (hit d); [|reflexivity].
  rewrite trailingLoop_acc. reflexivity.
Qed.

(** The current streak of a summary whose window ends today is positive
    exactly when today is a hit. *)
Lemma currentStreak_today (cal : Calendar) (st : Store) (weeks : option string) :
  windowKey cal (weeksOf weeks * 7) (Z.to_nat (weeksOf weeks * 7) - 1) = isoDate cal ->
  let s := buildSummary cal st weeks in
  (hit (dayStat st (isoDate cal)) = true -> 1 <= currentStreak s) /\
  (hit (dayStat st (isoDate cal)) = false -> currentStreak s = 0).
Proof.
  intros Hkey s. subst s. unfold buildSummary, summarize. cbn [currentStreak].
  pose proof (weeksOf_range weeks) as Hw.
  destruct (Z.to_nat (weeksOf weeks * 7)) as [|n] eqn:En; [lia|].
  rewrite seq_S, map_app. cbn [map].
  rewrite trailing_last. replace (S n - 1) with n in Hkey by lia.
  cbn [Nat.add]. rewrite Hkey.
  split; intros ->; [lia | reflexivity].
Qed.

(** X22. When the window of the summary ends today, a scan with a file or
    a day logged as done shows at once: the current streak, the best streak
    and the hits of the last 7 and 30 days are at least 1; and a day logged
    as not done brings the current streak to 0, whatever was eaten. *)
Theorem today_in_summary (cal : Calendar) (st : Store) (weeks : option string) :
  windowKey cal (weeksOf weeks * 7) (Z.to_nat (weeksOf weeks * 7) - 1) = isoDate cal ->
  (forall st',
     st' = fst (postScanAnalyze cal st true) \/
     st' = fst (postStreaksLog cal st None (Some true)) ->
     let s := buildSummary cal st' weeks in
     1 <= currentStreak s /\ 1 <= bestStreak s /\ 1 <= hits7 s /\ 1 <= hits30 s) /\
  currentStreak (buildSummary cal (fst (postStreaksLog cal st None (Some false))) weeks) = 0.
Proof.
  intros Hkey. split.
  - intros st' Hst' s.
    assert (Hhit : hit (dayStat st' (isoDate cal)) = true).
    { destruct Hst' as [-> | ->].
      - unfold postScanAnalyze. cbn [negb fst].
        rewrite dayStat_classify, setOverride_lookup, classify_hit. reflexivity.
      - unfold postStreaksLog. cbn [truthyStr default from_option id fst].
        rewrite (dayStat_classify (setOverride _ _ _)), setOverride_lookup, classify_hit.
        reflexivity. }
    pose proof (proj1 (currentStreak_today cal st' weeks Hkey) Hhit) as Hc. fold s in Hc.
    assert (Hb : currentStreak s <= bestStreak s) by apply trailing_le_best.
    assert (H7 : Nat.min (currentStreak s) 7 <= hits7 s) by apply trailing_run_in_last.
    assert (H30 : Nat.min (currentStreak s) 30 <= hits30 s) by apply trailing_run_in_last.
    lia.
  - apply currentStreak_today; [exact Hkey|].
    unfold postStreaksLog. cbn [truthyStr default from_option id fst].
    rewrite (dayStat_classify (setOverride _ _ _)), setOverride_lookup, classify_hit.
    reflexivity.
Qed.

Lemma today_in_summary_witness :
  windowKey sampleCalendar (weeksOf (Some "2"%string) * 7)
            (Z.to_nat (weeksOf (Some "2"%string) * 7) - 1) = isoDate sampleCalendar /\
  1 <= currentStreak (buildSummary sampleCalendar (fst (postScanAnalyze sampleCalendar store0 true))
                                   (Some "2"%string)).
Proof.
  split; [reflexivity|].
  apply (proj1 (today_in_summary sampleCalendar store0 (Some "2"%string) eq_refl)
               (fst (postScanAnalyze sampleCalendar store0 true))).
  left. reflexivity.
Defined.
